(** * cooking_companion: ownership-filtered views over a relational store

    A shallow embedding of [cooking_companion/models.py] and
    [cooking_companion/views.py] (with the form field lists of
    [cooking_companion/forms.py]).

    - A table is a finite map from primary key to row ([gmap Z row]); a
      queryset is such a map too, so [order_by] and [select_related], which
      change neither the rows nor their number, do not appear.
    - Users are the primary keys of the auth user table.
    - Dates are day ordinals and timestamps are seconds, both in [Z];
      [timedelta(days=n)] is the integer [n].
    - A view is a computation over the store that returns a value or raises,
      and hands on the store as it is at that point. *)

From Stdlib Require Import Ascii String.
From stdpp Require Import gmap strings list fin_maps pretty.

Open Scope Z_scope.

(** ** The choices of the models *)

Inductive MealType := BREAKFAST | LUNCH | DINNER | SNACK | DESSERT | MEAL_OTHER.

Inductive CookMethod :=
  STOVETOP | OVEN | GRILL | AIR_FRYER | MICROWAVE | NO_COOK | METHOD_OTHER.

Inductive Outcome := NAILED_IT | GOOD | OKAY | FAIL | EXPERIMENT.

Inductive URLKind := URL_RECIPE | URL_VIDEO | URL_PRODUCT | URL_ARTICLE | URL_OTHER.

Inductive PDFKind := PDF_RECIPE | PDF_REFERENCE | PDF_INSTRUCTIONS | PDF_OTHER.

(** The stored value of a choice (the first component of each member). *)
Definition MealType_value (m : MealType) : string :=
  match m with
  | BREAKFAST => "breakfast" | LUNCH => "lunch" | DINNER => "dinner"
  | SNACK => "snack" | DESSERT => "dessert" | MEAL_OTHER => "other"
  end.

Definition CookMethod_value (m : CookMethod) : string :=
  match m with
  | STOVETOP => "stovetop" | OVEN => "oven" | GRILL => "grill"
  | AIR_FRYER => "air_fryer" | MICROWAVE => "microwave"
  | NO_COOK => "no_cook" | METHOD_OTHER => "other"
  end.

(** The model classes of the application; a content type is identified with
    the model class it stands for ([ContentType.objects.get_for_model]). *)
Inductive ModelClass :=
  | cls_Recipe | cls_Dish | cls_CookSession | cls_CookResult
  | cls_Note | cls_TrackedImage | cls_ReferenceURL | cls_PDFDocument.

Definition ContentType := ModelClass.

Global Instance ModelClass_eq_dec : EqDecision ModelClass.
Proof. solve_decision. Defined.

Global Instance Outcome_eq_dec : EqDecision Outcome.
Proof. solve_decision. Defined.

(** ** The models

    Every model has the two fields of [OwnedModel] and [TimeStampedModel]:
    [created_by] (a nullable foreign key to the user), [created_at] and
    [updated_at]. *)

Module Recipe.
Record t := mk {
  created_by : option Z;
  created_at : Z;
  updated_at : Z;
  title : string;
  description : string;
  author : string;
  ingredients : string;
  instructions : string;
  yield_text : string;
  prep_minutes : option N;
  cook_minutes : option N;
  is_favorite : bool;
  is_active : bool;
}.
End Recipe.

Module Dish.
Record t := mk {
  created_by : option Z;
  created_at : Z;
  updated_at : Z;
  name : string;
  description : string;
  default_recipe : option Z;
  is_active : bool;
}.
End Dish.

Module CookSession.
Record t := mk {
  created_by : option Z;
  created_at : Z;
  updated_at : Z;
  dish : Z;
  recipe_used : option Z;
  cooked_on : Z;
  meal_type : MealType;
  method : CookMethod;
  servings_made : option Z;  (* in hundredths: two decimal places *)
  duration_minutes : option N;
  summary : string;
  is_active : bool;
}.
End CookSession.

Module CookResult.
Record t := mk {
  created_by : option Z;
  created_at : Z;
  updated_at : Z;
  cook_session : Z;
  outcome : Outcome;
  overall_rating : option N;
  taste_rating : option N;
  texture_rating : option N;
  appearance_rating : option N;
  would_make_again : bool;
  what_worked : string;
  what_to_change : string;
  next_time_plan : string;
}.
End CookResult.

Module Note.
Record t := mk {
  created_by : option Z;
  created_at : Z;
  updated_at : Z;
  content_type : ContentType;
  object_id : string;
  title : string;
  body : string;
  is_pinned : bool;
}.
End Note.

Module TrackedImage.
Record t := mk {
  created_by : option Z;
  created_at : Z;
  updated_at : Z;
  uuid : N;
  content_type : ContentType;
  object_id : string;
  image : string;  (* the name of the stored file *)
  caption : string;
  alt_text : string;
  taken_at : option Z;
  sort_order : N;
  is_cover : bool;
}.
End TrackedImage.

Module ReferenceURL.
Record t := mk {
  created_by : option Z;
  created_at : Z;
  updated_at : Z;
  content_type : ContentType;
  object_id : string;
  kind : URLKind;
  title : string;
  url : string;
  description : string;
  sort_order : N;
  is_primary : bool;
}.
End ReferenceURL.

Module PDFDocument.
Record t := mk {
  created_by : option Z;
  created_at : Z;
  updated_at : Z;
  uuid : N;
  content_type : ContentType;
  object_id : string;
  kind : PDFKind;
  title : string;
  description : string;
  pdf : string;  (* the name of the file; empty when no file is attached *)
  original_filename : string;
  page_count : option N;
  sort_order : N;
}.
End PDFDocument.

(** ** The store *)

Record DB := mkDB {
  recipes : gmap Z Recipe.t;
  dishes : gmap Z Dish.t;
  cook_sessions : gmap Z CookSession.t;
  cook_results : gmap Z CookResult.t;
  notes : gmap Z Note.t;
  tracked_images : gmap Z TrackedImage.t;
  reference_urls : gmap Z ReferenceURL.t;
  pdf_documents : gmap Z PDFDocument.t;
}.

Definition empty_db : DB := mkDB ∅ ∅ ∅ ∅ ∅ ∅ ∅ ∅.

(** ** Computations over the store *)

Inductive Exc :=
  | Http404
  | IntegrityError
  | ProtectedError
  | MultipleObjectsReturned.

Inductive Res (A : Type) :=
  | Ok (a : A)
  | Raise (e : Exc).

Arguments Ok {A} a.
Arguments Raise {A} e.

Definition M (A : Type) : Type := DB → Res A * DB.

Global Instance M_ret : MRet M := λ A a db, (Ok a, db).

Global Instance M_bind : MBind M := λ A B f c db,
  match c db with
  | (Ok a, db') => f a db'
  | (Raise e, db') => (Raise e, db')
  end.

Definition raise {A} (e : Exc) : M A := λ db, (Raise e, db).

Definition get_db : M DB := λ db, (Ok db, db).

Definition put_db (db' : DB) : M unit := λ _, (Ok tt, db').

(** ** The traits of the models

    [Manager] is [Model.objects], the table of a model in the store.
    [OwnedModel] and [TimeStampedModel] are the two abstract base models. *)

Class Manager (A : Type) := {
  objects : DB → gmap Z A;
  with_objects : gmap Z A → DB → DB;
}.

Class OwnedModel (A : Type) := {
  created_by : A → option Z;
  with_created_by : option Z → A → A;
}.

Class TimeStampedModel (A : Type) := {
  with_updated_at : Z → A → A;
}.

Global Instance Recipe_manager : Manager Recipe.t := {|
  objects := recipes;
  with_objects t db :=
    mkDB t (dishes db) (cook_sessions db) (cook_results db) (notes db)
      (tracked_images db) (reference_urls db) (pdf_documents db);
|}.

Global Instance Dish_manager : Manager Dish.t := {|
  objects := dishes;
  with_objects t db :=
    mkDB (recipes db) t (cook_sessions db) (cook_results db) (notes db)
      (tracked_images db) (reference_urls db) (pdf_documents db);
|}.

Global Instance CookSession_manager : Manager CookSession.t := {|
  objects := cook_sessions;
  with_objects t db :=
    mkDB (recipes db) (dishes db) t (cook_results db) (notes db)
      (tracked_images db) (reference_urls db) (pdf_documents db);
|}.

Global Instance CookResult_manager : Manager CookResult.t := {|
  objects := cook_results;
  with_objects t db :=
    mkDB (recipes db) (dishes db) (cook_sessions db) t (notes db)
      (tracked_images db) (reference_urls db) (pdf_documents db);
|}.

Global Instance Note_manager : Manager Note.t := {|
  objects := notes;
  with_objects t db :=
    mkDB (recipes db) (dishes db) (cook_sessions db) (cook_results db) t
      (tracked_images db) (reference_urls db) (pdf_documents db);
|}.

Global Instance TrackedImage_manager : Manager TrackedImage.t := {|
  objects := tracked_images;
  with_objects t db :=
    mkDB (recipes db) (dishes db) (cook_sessions db) (cook_results db)
      (notes db) t (reference_urls db) (pdf_documents db);
|}.

Global Instance ReferenceURL_manager : Manager ReferenceURL.t := {|
  objects := reference_urls;
  with_objects t db :=
    mkDB (recipes db) (dishes db) (cook_sessions db) (cook_results db)
      (notes db) (tracked_images db) t (pdf_documents db);
|}.

Global Instance PDFDocument_manager : Manager PDFDocument.t := {|
  objects := pdf_documents;
  with_objects t db :=
    mkDB (recipes db) (dishes db) (cook_sessions db) (cook_results db)
      (notes db) (tracked_images db) (reference_urls db) t;
|}.

Global Instance Recipe_owned : OwnedModel Recipe.t := {|
  created_by := Recipe.created_by;
  with_created_by u r :=
    let 'Recipe.mk _ a b c d e f g h i j k l := r in
    Recipe.mk u a b c d e f g h i j k l;
|}.

Global Instance Dish_owned : OwnedModel Dish.t := {|
  created_by := Dish.created_by;
  with_created_by u r :=
    let 'Dish.mk _ a b c d e f := r in Dish.mk u a b c d e f;
|}.

Global Instance CookSession_owned : OwnedModel CookSession.t := {|
  created_by := CookSession.created_by;
  with_created_by u r :=
    let 'CookSession.mk _ a b c d e f g h i j k := r in
    CookSession.mk u a b c d e f g h i j k;
|}.

Global Instance CookResult_owned : OwnedModel CookResult.t := {|
  created_by := CookResult.created_by;
  with_created_by u r :=
    let 'CookResult.mk _ a b c d e f g h i j k l := r in
    CookResult.mk u a b c d e f g h i j k l;
|}.

Global Instance Note_owned : OwnedModel Note.t := {|
  created_by := Note.created_by;
  with_created_by u r :=
    let 'Note.mk _ a b c d e f g := r in Note.mk u a b c d e f g;
|}.

Global Instance TrackedImage_owned : OwnedModel TrackedImage.t := {|
  created_by := TrackedImage.created_by;
  with_created_by u r :=
    let 'TrackedImage.mk _ a b c d e f g h i j k := r in
    TrackedImage.mk u a b c d e f g h i j k;
|}.

Global Instance ReferenceURL_owned : OwnedModel ReferenceURL.t := {|
  created_by := ReferenceURL.created_by;
  with_created_by u r :=
    let 'ReferenceURL.mk _ a b c d e f g h i j := r in
    ReferenceURL.mk u a b c d e f g h i j;
|}.

Global Instance PDFDocument_owned : OwnedModel PDFDocument.t := {|
  created_by := PDFDocument.created_by;
  with_created_by u r :=
    let 'PDFDocument.mk _ a b c d e f g h i j k l := r in
    PDFDocument.mk u a b c d e f g h i j k l;
|}.

(** [auto_now=True]: every save writes the time of the save. *)
Global Instance Recipe_stamped : TimeStampedModel Recipe.t := {|
  with_updated_at n r :=
    let 'Recipe.mk o a _ c d e f g h i j k l := r in
    Recipe.mk o a n c d e f g h i j k l;
|}.

Global Instance Dish_stamped : TimeStampedModel Dish.t := {|
  with_updated_at n r :=
    let 'Dish.mk o a _ c d e f := r in Dish.mk o a n c d e f;
|}.

Global Instance CookSession_stamped : TimeStampedModel CookSession.t := {|
  with_updated_at n r :=
    let 'CookSession.mk o a _ c d e f g h i j k := r in
    CookSession.mk o a n c d e f g h i j k;
|}.

Global Instance CookResult_stamped : TimeStampedModel CookResult.t := {|
  with_updated_at n r :=
    let 'CookResult.mk o a _ c d e f g h i j k l := r in
    CookResult.mk o a n c d e f g h i j k l;
|}.

Global Instance Note_stamped : TimeStampedModel Note.t := {|
  with_updated_at n r :=
    let 'Note.mk o a _ c d e f g := r in Note.mk o a n c d e f g;
|}.

Global Instance TrackedImage_stamped : TimeStampedModel TrackedImage.t := {|
  with_updated_at n r :=
    let 'TrackedImage.mk o a _ c d e f g h i j k := r in
    TrackedImage.mk o a n c d e f g h i j k;
|}.

Global Instance ReferenceURL_stamped : TimeStampedModel ReferenceURL.t := {|
  with_updated_at n r :=
    let 'ReferenceURL.mk o a _ c d e f g h i j := r in
    ReferenceURL.mk o a n c d e f g h i j;
|}.

Global Instance PDFDocument_stamped : TimeStampedModel PDFDocument.t := {|
  with_updated_at n r :=
    let 'PDFDocument.mk o a _ c d e f g h i j k l := r in
    PDFDocument.mk o a n c d e f g h i j k l;
|}.

(** ** Strings, as the views use them *)

(** [str.isspace] on one character of the ASCII range. *)
Definition isspace (c : ascii) : bool :=
  let n := N_of_ascii c in
  ((9 <=? n) && (n <=? 13) || (28 <=? n) && (n <=? 32))%N.

Fixpoint lstrip (s : string) : string :=
  match s with
  | String c s' => if isspace c then lstrip s' else s
  | EmptyString => EmptyString
  end.

(** [s.strip()] *)
Definition strip (s : string) : string :=
  String.rev (lstrip (String.rev (lstrip s))).

Definition lower (c : ascii) : ascii :=
  let n := N_of_ascii c in
  if ((65 <=? n) && (n <=? 90))%N then ascii_of_N (n + 32) else c.

Fixpoint casefold (s : string) : string :=
  match s with
  | String c s' => String (lower c) (casefold s')
  | EmptyString => EmptyString
  end.

Fixpoint contains (needle hay : string) : bool :=
  String.prefix needle hay ||
  match hay with
  | String _ hay' => contains needle hay'
  | EmptyString => false
  end.

(** The [__icontains] lookup: containment up to the case of the letters. *)
Definition icontains (hay needle : string) : bool :=
  contains (casefold needle) (casefold hay).

(** [s.split(sep)] for a separator of one character: the pieces between the
    separators, at least one piece. *)
Fixpoint split (sep : ascii) (s : string) : list string :=
  match s with
  | EmptyString => [EmptyString]
  | String c s' =>
      if bool_decide (c = sep) then EmptyString :: split sep s'
      else match split sep s' with
           | piece :: pieces => String c piece :: pieces
           | [] => [String c EmptyString]
           end
  end.

(** [str(n)] for an integer. *)
Definition str (n : Z) : string := pretty n.

(** A text is true in a condition when it is not empty. *)
Definition truthy (s : string) : bool := negb (bool_decide (s = EmptyString)).

(** ** Querysets *)

(** [qs.filter(...)] with the condition [q] on the row. *)
Definition qs_filter {A} (q : A → bool) (qs : gmap Z A) : gmap Z A :=
  filter (λ kv, q kv.2 = true) qs.

(** [qs.count()] *)
Definition count {A} (qs : gmap Z A) : nat := size qs.

(** [get_object_or_404(qs, pk=pk)] *)
Definition get_object_or_404 {A} (qs : gmap Z A) (pk : Z) : M A :=
  match qs !! pk with
  | Some obj => mret obj
  | None => raise Http404
  end.

(** ** views.owned_q (and forms._owned_q, which is the same condition)

    [Q(created_by=user) | Q(created_by__isnull=True)] *)
Definition owned_q {A} `{OwnedModel A} (user : Z) (r : A) : bool :=
  bool_decide (created_by r = Some user) || bool_decide (created_by r = None).

(** ** Saving and deleting rows *)

(** The key the store gives a new row: above every key in use. *)
Definition next_pk {A} (t : gmap Z A) : Z :=
  1 + foldr Z.max 0 (map_to_list t).*1.

(** Uniqueness as the model declares it: [conflicts a b] when two different
    rows holding [a] and [b] may not both be in the table. *)
Class ModelMeta (A : Type) := {
  conflicts : A → A → bool;
}.

Global Instance Recipe_meta : ModelMeta Recipe.t := {| conflicts _ _ := false |}.

(** [UniqueConstraint(fields=["created_by", "name"])] on a nullable
    [created_by]: as in SQL, and in the constraint's own [validate], a row
    whose [created_by] is null conflicts with no row. *)
Global Instance Dish_meta : ModelMeta Dish.t := {|
  conflicts a b :=
    match Dish.created_by a, Dish.created_by b with
    | Some u, Some v => bool_decide (u = v) && bool_decide (Dish.name a = Dish.name b)
    | _, _ => false
    end;
|}.

Global Instance CookSession_meta : ModelMeta CookSession.t := {|
  conflicts _ _ := false;
|}.

(** [OneToOneField]: the column [cook_session] is unique. *)
Global Instance CookResult_meta : ModelMeta CookResult.t := {|
  conflicts a b := bool_decide (CookResult.cook_session a = CookResult.cook_session b);
|}.

Global Instance Note_meta : ModelMeta Note.t := {| conflicts _ _ := false |}.

Global Instance TrackedImage_meta : ModelMeta TrackedImage.t := {|
  conflicts a b := bool_decide (TrackedImage.uuid a = TrackedImage.uuid b);
|}.

Global Instance ReferenceURL_meta : ModelMeta ReferenceURL.t := {|
  conflicts _ _ := false;
|}.

Global Instance PDFDocument_meta : ModelMeta PDFDocument.t := {|
  conflicts a b := bool_decide (PDFDocument.uuid a = PDFDocument.uuid b);
|}.

(** Whether [obj], saved under [pk] ([None] for a new row), would stand next
    to another row it conflicts with. *)
Definition violates {A} `{ModelMeta A} (t : gmap Z A) (pk : option Z) (obj : A) : bool :=
  bool_decide (map_Exists (λ k r, Some k ≠ pk ∧ conflicts r obj = true) t).

(** [models.Model.save]: writes [updated_at], checks the constraints, and
    inserts the row under a new key or replaces the row of the instance.
    Returns the instance as it is after the save, with its key. *)
Definition Model_save {A} `{Manager A, TimeStampedModel A, ModelMeta A}
    (now : Z) (pk : option Z) (obj : A) : M (Z * A) :=
  λ db,
    let obj' := with_updated_at now obj in
    if violates (objects db) pk obj' then (Raise IntegrityError, db)
    else
      let pk' := default (next_pk (objects db)) pk in
      (Ok (pk', obj'), with_objects (<[pk' := obj']> (objects db)) db).

Definition PDFDocument_with_original_filename (s : string) (r : PDFDocument.t) : PDFDocument.t :=
  let 'PDFDocument.mk o a b c d e f g h i _ k l := r in
  PDFDocument.mk o a b c d e f g h i s k l.

(** [PDFDocument.save]: keeps the name of the file as [original_filename]
    when there is a file and no [original_filename] yet, then saves. *)
Definition PDFDocument_save (now : Z) (pk : option Z) (self : PDFDocument.t) :
    M (Z * PDFDocument.t) :=
  let self :=
    if truthy (PDFDocument.pdf self) && negb (truthy (PDFDocument.original_filename self))
    then PDFDocument_with_original_filename
           (default EmptyString (last (split "/" (PDFDocument.pdf self)))) self
    else self in
  Model_save now pk self.

(** [obj.save()], with the override of the class where it has one. *)
Class Model (A : Type) := {
  save : Z → option Z → A → M (Z * A);
}.

Global Instance Recipe_model : Model Recipe.t := {| save := Model_save |}.
Global Instance Dish_model : Model Dish.t := {| save := Model_save |}.
Global Instance CookSession_model : Model CookSession.t := {| save := Model_save |}.
Global Instance CookResult_model : Model CookResult.t := {| save := Model_save |}.
Global Instance Note_model : Model Note.t := {| save := Model_save |}.
Global Instance TrackedImage_model : Model TrackedImage.t := {| save := Model_save |}.
Global Instance ReferenceURL_model : Model ReferenceURL.t := {| save := Model_save |}.
Global Instance PDFDocument_model : Model PDFDocument.t := {| save := PDFDocument_save |}.

Definition Dish_with_default_recipe (v : option Z) (r : Dish.t) : Dish.t :=
  let 'Dish.mk o a b c d _ f := r in Dish.mk o a b c d v f.

Definition CookSession_with_recipe_used (v : option Z) (r : CookSession.t) : CookSession.t :=
  let 'CookSession.mk o a b c _ e f g h i j k := r in
  CookSession.mk o a b c v e f g h i j k.

(** [Recipe.delete]: both foreign keys to a recipe are [on_delete=SET_NULL],
    [Dish.default_recipe] and [CookSession.recipe_used]. *)
Definition Recipe_delete (pk : Z) : M unit :=
  λ db,
    let set_null_dish (d : Dish.t) :=
      if bool_decide (Dish.default_recipe d = Some pk)
      then Dish_with_default_recipe None d else d in
    let set_null_session (s : CookSession.t) :=
      if bool_decide (CookSession.recipe_used s = Some pk)
      then CookSession_with_recipe_used None s else s in
    (Ok tt,
     mkDB (delete pk (recipes db)) (set_null_dish <$> dishes db)
       (set_null_session <$> cook_sessions db) (cook_results db) (notes db)
       (tracked_images db) (reference_urls db) (pdf_documents db)).

(** [Dish.delete]: [CookSession.dish] is [on_delete=PROTECT]. *)
Definition Dish_delete (pk : Z) : M unit :=
  λ db,
    if bool_decide (map_Exists (λ _ s, CookSession.dish s = pk) (cook_sessions db))
    then (Raise ProtectedError, db)
    else (Ok tt, with_objects (delete pk (dishes db)) db).

(** [CookSession.delete]: [CookResult.cook_session] is [on_delete=CASCADE]. *)
Definition CookSession_delete (pk : Z) : M unit :=
  λ db,
    (Ok tt,
     mkDB (recipes db) (dishes db) (delete pk (cook_sessions db))
       (filter (λ kv, CookResult.cook_session kv.2 ≠ pk) (cook_results db))
       (notes db) (tracked_images db) (reference_urls db) (pdf_documents db)).

(** ** Requests and responses *)

(** What a view reads of the request, and the readings it takes while the
    request is served: [timezone.now()], [timezone.localdate()] and the
    value [uuid.uuid4()] draws. The user is logged in (every view is behind
    [LoginRequiredMixin]). *)
Module HttpRequest.
Record t := mk {
  user : Z;
  GET : gmap string string;
  now : Z;
  today : Z;
  uuid4 : N;
}.
End HttpRequest.

(** A URL name of [urls.py] with its arguments: what [reverse] is given. *)
Inductive Url :=
  | recipe_list
  | recipe_detail (pk : Z)
  | dish_list
  | dish_detail (pk : Z)
  | cooksession_list (query : string)
  | cooksession_detail (pk : Z)
  | target_detail (model_key : string) (pk : Z).

(** The method of a request to a form view, with the submitted values. *)
Inductive Method (A : Type) :=
  | HTTP_GET
  | HTTP_POST (data : A).

Arguments HTTP_GET {A}.
Arguments HTTP_POST {A} data.

(** The page with the form (for a saved instance and its key, or for none),
    or the redirect after a save. *)
Inductive HttpResponse (A : Type) :=
  | FormPage (object : option (Z * A))
  | HttpResponseRedirect (url : Url).

Arguments FormPage {A} object.
Arguments HttpResponseRedirect {A} url.

(** ** forms.py

    The submitted values of a form are given as a row of the form's model, of
    which only the fields of [Meta.fields] are read. [is_valid] keeps the
    checks the model fields declare on the values as the store holds them:
    a required text is not empty, [max_length], the validators of the
    ratings, the digits of a decimal, and a choice of a row being in the
    queryset of its field. [construct_instance] is [form.save(commit=False)]:
    it writes the fields of [Meta.fields] into the instance. *)

Record ModelForm (A : Type) := {
  is_valid : Z → DB → A → bool;
  construct_instance : A → A → A;
}.

Arguments is_valid {A} _ _ _ _.
Arguments construct_instance {A} _ _ _.

(** [Model()]: a new instance with the defaults of its fields. A field that
    has no default and is not written by the form is unset on a new
    instance; the view assigns it before the row is saved, and until then it
    keeps here the value the submitted row carries. *)
Class ModelInit (A : Type) := {
  init : HttpRequest.t → A → A;
}.

Definition max_length (n : nat) (s : string) : bool :=
  bool_decide (String.length s ≤ n)%nat.

Definition in_queryset {A} (qs : gmap Z A) (pk : Z) : bool :=
  bool_decide (is_Some (qs !! pk)).

(** [MinValueValidator(1)] and [MaxValueValidator(10)] on a nullable field. *)
Definition rating_ok (r : option N) : bool :=
  match r with
  | Some n => ((1 <=? n) && (n <=? 10))%N
  | None => true
  end.

Global Instance Recipe_init : ModelInit Recipe.t := {|
  init req _ :=
    Recipe.mk None (HttpRequest.now req) (HttpRequest.now req)
      "" "" "" "" "" "" None None false true;
|}.

Global Instance Dish_init : ModelInit Dish.t := {|
  init req _ :=
    Dish.mk None (HttpRequest.now req) (HttpRequest.now req) "" "" None true;
|}.

Global Instance CookSession_init : ModelInit CookSession.t := {|
  init req data :=
    CookSession.mk None (HttpRequest.now req) (HttpRequest.now req)
      (CookSession.dish data) None (HttpRequest.today req)
      MEAL_OTHER METHOD_OTHER None None "" true;
|}.

Global Instance Note_init : ModelInit Note.t := {|
  init req data :=
    Note.mk None (HttpRequest.now req) (HttpRequest.now req)
      (Note.content_type data) (Note.object_id data) "" "" false;
|}.

Global Instance TrackedImage_init : ModelInit TrackedImage.t := {|
  init req data :=
    TrackedImage.mk None (HttpRequest.now req) (HttpRequest.now req)
      (HttpRequest.uuid4 req)
      (TrackedImage.content_type data) (TrackedImage.object_id data)
      "" "" "" None 0%N false;
|}.

Global Instance ReferenceURL_init : ModelInit ReferenceURL.t := {|
  init req data :=
    ReferenceURL.mk None (HttpRequest.now req) (HttpRequest.now req)
      (ReferenceURL.content_type data) (ReferenceURL.object_id data)
      URL_OTHER "" "" "" 0%N false;
|}.

Global Instance PDFDocument_init : ModelInit PDFDocument.t := {|
  init req data :=
    PDFDocument.mk None (HttpRequest.now req) (HttpRequest.now req)
      (HttpRequest.uuid4 req)
      (PDFDocument.content_type data) (PDFDocument.object_id data)
      PDF_OTHER "" "" "" "" None 0%N;
|}.

Definition RecipeForm : ModelForm Recipe.t := {|
  is_valid _ _ data :=
    truthy (Recipe.title data) && max_length 200 (Recipe.title data)
    && max_length 200 (Recipe.author data)
    && max_length 100 (Recipe.yield_text data);
  construct_instance data obj :=
    Recipe.mk (Recipe.created_by obj) (Recipe.created_at obj) (Recipe.updated_at obj)
      (Recipe.title data) (Recipe.description data) (Recipe.author data)
      (Recipe.ingredients data) (Recipe.instructions data)
      (Recipe.yield_text data) (Recipe.prep_minutes data) (Recipe.cook_minutes data)
      (Recipe.is_favorite data) (Recipe.is_active data);
|}.

(** The views always pass [user], which limits [default_recipe] to the
    recipes of [_owned_q(user)]. *)
Definition DishForm : ModelForm Dish.t := {|
  is_valid user db data :=
    truthy (Dish.name data) && max_length 200 (Dish.name data)
    && match Dish.default_recipe data with
       | Some r => in_queryset (qs_filter (owned_q user) (recipes db)) r
       | None => true
       end;
  construct_instance data obj :=
    Dish.mk (Dish.created_by obj) (Dish.created_at obj) (Dish.updated_at obj)
      (Dish.name data) (Dish.description data) (Dish.default_recipe data)
      (Dish.is_active data);
|}.

Definition CookSessionForm : ModelForm CookSession.t := {|
  is_valid user db data :=
    in_queryset (qs_filter (owned_q user) (dishes db)) (CookSession.dish data)
    && match CookSession.recipe_used data with
       | Some r => in_queryset (qs_filter (owned_q user) (recipes db)) r
       | None => true
       end
    && match CookSession.servings_made data with
       | Some v => bool_decide (-1000000 < v < 1000000)
       | None => true
       end
    && max_length 280 (CookSession.summary data);
  construct_instance data obj :=
    CookSession.mk (CookSession.created_by obj) (CookSession.created_at obj)
      (CookSession.updated_at obj)
      (CookSession.dish data) (CookSession.recipe_used data)
      (CookSession.cooked_on data) (CookSession.meal_type data)
      (CookSession.method data) (CookSession.servings_made data)
      (CookSession.duration_minutes data) (CookSession.summary data)
      (CookSession.is_active data);
|}.

Definition CookResultForm : ModelForm CookResult.t := {|
  is_valid _ _ data :=
    rating_ok (CookResult.overall_rating data)
    && rating_ok (CookResult.taste_rating data)
    && rating_ok (CookResult.texture_rating data)
    && rating_ok (CookResult.appearance_rating data);
  construct_instance data obj :=
    CookResult.mk (CookResult.created_by obj) (CookResult.created_at obj)
      (CookResult.updated_at obj) (CookResult.cook_session obj)
      (CookResult.outcome data)
      (CookResult.overall_rating data) (CookResult.taste_rating data)
      (CookResult.texture_rating data) (CookResult.appearance_rating data)
      (CookResult.would_make_again data)
      (CookResult.what_worked data) (CookResult.what_to_change data)
      (CookResult.next_time_plan data);
|}.

Definition NoteForTargetForm : ModelForm Note.t := {|
  is_valid _ _ data :=
    truthy (Note.body data) && max_length 200 (Note.title data);
  construct_instance data obj :=
    Note.mk (Note.created_by obj) (Note.created_at obj) (Note.updated_at obj)
      (Note.content_type obj) (Note.object_id obj)
      (Note.title data) (Note.body data) (Note.is_pinned data);
|}.

Definition ReferenceURLForTargetForm : ModelForm ReferenceURL.t := {|
  is_valid _ _ data :=
    truthy (ReferenceURL.url data) && max_length 200 (ReferenceURL.url data)
    && max_length 200 (ReferenceURL.title data);
  construct_instance data obj :=
    ReferenceURL.mk (ReferenceURL.created_by obj) (ReferenceURL.created_at obj)
      (ReferenceURL.updated_at obj)
      (ReferenceURL.content_type obj) (ReferenceURL.object_id obj)
      (ReferenceURL.kind data) (ReferenceURL.title data) (ReferenceURL.url data)
      (ReferenceURL.description data) (ReferenceURL.sort_order data)
      (ReferenceURL.is_primary data);
|}.

Definition TrackedImageForTargetForm : ModelForm TrackedImage.t := {|
  is_valid _ _ data :=
    truthy (TrackedImage.image data)
    && max_length 300 (TrackedImage.caption data)
    && max_length 300 (TrackedImage.alt_text data);
  construct_instance data obj :=
    TrackedImage.mk (TrackedImage.created_by obj) (TrackedImage.created_at obj)
      (TrackedImage.updated_at obj) (TrackedImage.uuid obj)
      (TrackedImage.content_type obj) (TrackedImage.object_id obj)
      (TrackedImage.image data) (TrackedImage.caption data)
      (TrackedImage.alt_text data) (TrackedImage.taken_at data)
      (TrackedImage.sort_order data) (TrackedImage.is_cover data);
|}.

Definition PDFDocumentForTargetForm : ModelForm PDFDocument.t := {|
  is_valid _ _ data :=
    truthy (PDFDocument.pdf data) && max_length 200 (PDFDocument.title data);
  construct_instance data obj :=
    PDFDocument.mk (PDFDocument.created_by obj) (PDFDocument.created_at obj)
      (PDFDocument.updated_at obj) (PDFDocument.uuid obj)
      (PDFDocument.content_type obj) (PDFDocument.object_id obj)
      (PDFDocument.kind data) (PDFDocument.title data)
      (PDFDocument.description data) (PDFDocument.pdf data)
      (PDFDocument.original_filename obj)
      (PDFDocument.page_count data) (PDFDocument.sort_order data);
|}.

(** The two fields of a generic foreign key, on the four models that can be
    attached to a target. *)
Class GenericTarget (A : Type) := {
  content_type : A → ContentType;
  object_id : A → string;
  with_content_type : ContentType → A → A;
  with_object_id : string → A → A;
}.

Global Instance Note_generic : GenericTarget Note.t := {|
  content_type := Note.content_type;
  object_id := Note.object_id;
  with_content_type ct r :=
    let 'Note.mk o a b _ d e f g := r in Note.mk o a b ct d e f g;
  with_object_id oid r :=
    let 'Note.mk o a b c _ e f g := r in Note.mk o a b c oid e f g;
|}.

Global Instance TrackedImage_generic : GenericTarget TrackedImage.t := {|
  content_type := TrackedImage.content_type;
  object_id := TrackedImage.object_id;
  with_content_type ct r :=
    let 'TrackedImage.mk o a b c _ e f g h i j k := r in
    TrackedImage.mk o a b c ct e f g h i j k;
  with_object_id oid r :=
    let 'TrackedImage.mk o a b c d _ f g h i j k := r in
    TrackedImage.mk o a b c d oid f g h i j k;
|}.

Global Instance ReferenceURL_generic : GenericTarget ReferenceURL.t := {|
  content_type := ReferenceURL.content_type;
  object_id := ReferenceURL.object_id;
  with_content_type ct r :=
    let 'ReferenceURL.mk o a b _ d e f g h i j := r in
    ReferenceURL.mk o a b ct d e f g h i j;
  with_object_id oid r :=
    let 'ReferenceURL.mk o a b c _ e f g h i j := r in
    ReferenceURL.mk o a b c oid e f g h i j;
|}.

Global Instance PDFDocument_generic : GenericTarget PDFDocument.t := {|
  content_type := PDFDocument.content_type;
  object_id := PDFDocument.object_id;
  with_content_type ct r :=
    let 'PDFDocument.mk o a b c _ e f g h i j k l := r in
    PDFDocument.mk o a b c ct e f g h i j k l;
  with_object_id oid r :=
    let 'PDFDocument.mk o a b c d _ f g h i j k l := r in
    PDFDocument.mk o a b c d oid f g h i j k l;
|}.

(** ** views.py: the mixin of the owned form views *)

(** [OwnedQuerysetMixin.get_queryset] *)
Definition OwnedQuerysetMixin_get_queryset {A} `{Manager A, OwnedModel A}
    (req : HttpRequest.t) (db : DB) : gmap Z A :=
  qs_filter (owned_q (HttpRequest.user req)) (objects db).

(** [OwnedQuerysetMixin.form_valid], for the form bound to [data] and to the
    instance [obj] whose key is [pk] ([None] for a new instance). *)
Definition OwnedQuerysetMixin_form_valid {A} `{OwnedModel A, Model A}
    (form : ModelForm A) (get_success_url : Z → Url)
    (req : HttpRequest.t) (data : A) (pk : option Z) (obj : A) : M (HttpResponse A) :=
  let obj := construct_instance form data obj in
  let obj :=
    match created_by obj with
    | None => with_created_by (Some (HttpRequest.user req)) obj
    | Some _ => obj
    end in
  '(pk', _) ← save (HttpRequest.now req) pk obj;
  mret (HttpResponseRedirect (get_success_url pk')).

(** [generic.CreateView] under the mixin: [get] shows the empty form, [post]
    validates the form and calls [form_valid] or shows the form again. *)
Definition CreateView {A} `{OwnedModel A, Model A, ModelInit A}
    (form : ModelForm A) (get_success_url : Z → Url)
    (req : HttpRequest.t) (method : Method A) : M (HttpResponse A) :=
  match method with
  | HTTP_GET => mret (FormPage None)
  | HTTP_POST data =>
      db ← get_db;
      if is_valid form (HttpRequest.user req) db data
      then OwnedQuerysetMixin_form_valid form get_success_url req data None (init req data)
      else mret (FormPage None)
  end.

(** [generic.UpdateView] under the mixin: the object is looked up in the
    queryset of the mixin. *)
Definition UpdateView {A} `{Manager A, OwnedModel A, Model A}
    (form : ModelForm A) (get_success_url : Z → Url)
    (req : HttpRequest.t) (method : Method A) (pk : Z) : M (HttpResponse A) :=
  db ← get_db;
  obj ← get_object_or_404 (OwnedQuerysetMixin_get_queryset req db) pk;
  match method with
  | HTTP_GET => mret (FormPage (Some (pk, obj)))
  | HTTP_POST data =>
      if is_valid form (HttpRequest.user req) db data
      then OwnedQuerysetMixin_form_valid form get_success_url req data (Some pk) obj
      else mret (FormPage (Some (pk, obj)))
  end.

(** [generic.DetailView.get_object] over the queryset of the view. *)
Definition DetailView_get_object {A} (get_queryset : HttpRequest.t → DB → gmap Z A)
    (req : HttpRequest.t) (pk : Z) : M A :=
  db ← get_db;
  get_object_or_404 (get_queryset req db) pk.

(** ** views.py: recipes *)

Definition RecipeListView_get_queryset (req : HttpRequest.t) (db : DB) : gmap Z Recipe.t :=
  let qs := qs_filter (owned_q (HttpRequest.user req)) (recipes db) in
  let q := strip (default EmptyString (HttpRequest.GET req !! "q")) in
  let qs :=
    if truthy q
    then qs_filter (λ r, icontains (Recipe.title r) q || icontains (Recipe.author r) q
                         || icontains (Recipe.description r) q) qs
    else qs in
  let qs :=
    if bool_decide (HttpRequest.GET req !! "favorite" = Some "1")
    then qs_filter Recipe.is_favorite qs else qs in
  let qs :=
    if bool_decide (HttpRequest.GET req !! "active" = Some "0")
    then qs_filter (λ r, negb (Recipe.is_active r)) qs else qs in
  qs.

Definition RecipeDetailView_get_queryset (req : HttpRequest.t) (db : DB) : gmap Z Recipe.t :=
  qs_filter (owned_q (HttpRequest.user req)) (recipes db).

Definition RecipeCreateView := CreateView RecipeForm recipe_detail.

Definition RecipeUpdateView := UpdateView RecipeForm recipe_detail.

(** ** views.py: dishes *)

(** [annotate(session_count=Count("cook_sessions"))] *)
Definition annotate_session_count (db : DB) (qs : gmap Z Dish.t) : gmap Z (Dish.t * nat) :=
  map_imap
    (λ pk d,
       Some (d, count (qs_filter (λ s, bool_decide (CookSession.dish s = pk))
                         (cook_sessions db))))
    qs.

(** [default_recipe__title__icontains=q]: false when there is no recipe. *)
Definition default_recipe_title_icontains (db : DB) (d : Dish.t) (q : string) : bool :=
  match Dish.default_recipe d with
  | Some r =>
      match recipes db !! r with
      | Some recipe => icontains (Recipe.title recipe) q
      | None => false
      end
  | None => false
  end.

Definition DishListView_get_queryset (req : HttpRequest.t) (db : DB) : gmap Z (Dish.t * nat) :=
  let qs := qs_filter (owned_q (HttpRequest.user req)) (dishes db) in
  let qs := annotate_session_count db qs in
  let q := strip (default EmptyString (HttpRequest.GET req !! "q")) in
  let qs :=
    if truthy q
    then qs_filter (λ d, icontains (Dish.name d.1) q || icontains (Dish.description d.1) q
                         || default_recipe_title_icontains db d.1 q) qs
    else qs in
  let qs :=
    if bool_decide (HttpRequest.GET req !! "active" = Some "0")
    then qs_filter (λ d, negb (Dish.is_active d.1)) qs else qs in
  qs.

Definition DishDetailView_get_queryset (req : HttpRequest.t) (db : DB) : gmap Z (Dish.t * nat) :=
  annotate_session_count db (qs_filter (owned_q (HttpRequest.user req)) (dishes db)).

Definition DishCreateView := CreateView DishForm dish_detail.

Definition DishUpdateView := UpdateView DishForm dish_detail.

(** ** views.py: cook sessions and results *)

Definition dish_name_icontains (db : DB) (s : CookSession.t) (q : string) : bool :=
  match dishes db !! CookSession.dish s with
  | Some d => icontains (Dish.name d) q
  | None => false
  end.

Definition recipe_used_title_icontains (db : DB) (s : CookSession.t) (q : string) : bool :=
  match CookSession.recipe_used s with
  | Some r =>
      match recipes db !! r with
      | Some recipe => icontains (Recipe.title recipe) q
      | None => false
      end
  | None => false
  end.

Definition CookSessionListView_get_queryset (req : HttpRequest.t) (db : DB) :
    gmap Z CookSession.t :=
  let qs := qs_filter (owned_q (HttpRequest.user req)) (cook_sessions db) in
  let q := strip (default EmptyString (HttpRequest.GET req !! "q")) in
  let qs :=
    if truthy q
    then qs_filter (λ s, dish_name_icontains db s q || recipe_used_title_icontains db s q
                         || icontains (CookSession.summary s) q) qs
    else qs in
  let when := HttpRequest.GET req !! "when" in
  let today := HttpRequest.today req in
  let qs :=
    if bool_decide (when = Some "today")
    then qs_filter (λ s, bool_decide (CookSession.cooked_on s = today)) qs
    else if bool_decide (when = Some "week")
    then qs_filter (λ s, bool_decide (today < CookSession.cooked_on s)
                         && bool_decide (CookSession.cooked_on s ≤ today + 7)) qs
    else if bool_decide (when = Some "month")
    then qs_filter (λ s, bool_decide (today < CookSession.cooked_on s)
                         && bool_decide (CookSession.cooked_on s ≤ today + 30)) qs
    else if bool_decide (when = Some "past30")
    then qs_filter (λ s, bool_decide (today - 30 ≤ CookSession.cooked_on s)
                         && bool_decide (CookSession.cooked_on s ≤ today)) qs
    else qs in
  let qs :=
    match HttpRequest.GET req !! "meal_type" with
    | Some meal =>
        if truthy meal
        then qs_filter (λ s, bool_decide (MealType_value (CookSession.meal_type s) = meal)) qs
        else qs
    | None => qs
    end in
  let qs :=
    match HttpRequest.GET req !! "method" with
    | Some method =>
        if truthy method
        then qs_filter (λ s, bool_decide (CookMethod_value (CookSession.method s) = method)) qs
        else qs
    | None => qs
    end in
  qs.

Definition CookSessionDetailView_get_queryset (req : HttpRequest.t) (db : DB) :
    gmap Z CookSession.t :=
  qs_filter (owned_q (HttpRequest.user req)) (cook_sessions db).

Definition CookSessionCreateView := CreateView CookSessionForm cooksession_detail.

Definition CookSessionUpdateView := UpdateView CookSessionForm cooksession_detail.

(** [CookResult.objects.get_or_create(cook_session=cook_session,
    defaults={"created_by": request.user})]: the row of the session when
    there is one, else a new row of the field defaults with the session and
    the user. *)
Definition get_or_create (req : HttpRequest.t) (cook_session : Z) : M (Z * CookResult.t) :=
  db ← get_db;
  match map_to_list (qs_filter (λ r, bool_decide (CookResult.cook_session r = cook_session))
                       (cook_results db)) with
  | [] =>
      save (HttpRequest.now req) None
        (CookResult.mk (Some (HttpRequest.user req))
           (HttpRequest.now req) (HttpRequest.now req) cook_session
           EXPERIMENT None None None None false "" "" "")
  | [found] => mret found
  | _ => raise MultipleObjectsReturned
  end.

(** [CookResultCreateUpdateView.dispatch], with the [get] and [post] of the
    [UpdateView] it hands on to; [get_object] is the row [dispatch] kept. *)
Definition CookResultCreateUpdateView_dispatch
    (req : HttpRequest.t) (method : Method CookResult.t) (session_pk : Z) :
    M (HttpResponse CookResult.t) :=
  db ← get_db;
  _ ← get_object_or_404 (qs_filter (owned_q (HttpRequest.user req)) (cook_sessions db))
        session_pk;
  '(pk, obj) ← get_or_create req session_pk;
  match method with
  | HTTP_GET => mret (FormPage (Some (pk, obj)))
  | HTTP_POST data =>
      db ← get_db;
      if is_valid CookResultForm (HttpRequest.user req) db data
      then
        '(_, saved) ← save (HttpRequest.now req) (Some pk)
                        (construct_instance CookResultForm data obj);
        mret (HttpResponseRedirect (cooksession_detail (CookResult.cook_session saved)))
      else mret (FormPage (Some (pk, obj)))
  end.

Definition CookResultDetailView_get_queryset (req : HttpRequest.t) (db : DB) :
    gmap Z CookResult.t :=
  qs_filter (owned_q (HttpRequest.user req)) (cook_results db).

(** ** views.py: the dashboard *)

Module Bucket.
Record t := mk {
  label : string;
  count : nat;
  url : Url;
}.
End Bucket.

(** [ctx["counts"]] of [DashboardView.get_context_data] *)
Definition DashboardView_counts (req : HttpRequest.t) (db : DB) : gmap string nat :=
  let user := HttpRequest.user req in
  {[ "recipes" := count (qs_filter (owned_q user) (recipes db));
     "dishes" := count (qs_filter (owned_q user) (dishes db));
     "sessions" := count (qs_filter (owned_q user) (cook_sessions db));
     "results" := count (qs_filter (owned_q user) (cook_results db));
     "images" := count (qs_filter (owned_q user) (tracked_images db));
     "notes" := count (qs_filter (owned_q user) (notes db));
     "urls" := count (qs_filter (owned_q user) (reference_urls db));
     "pdfs" := count (qs_filter (owned_q user) (pdf_documents db)) ]}.

(** [ctx["session_buckets"]] of [DashboardView.get_context_data] *)
Definition DashboardView_session_buckets (req : HttpRequest.t) (db : DB) : list Bucket.t :=
  let user := HttpRequest.user req in
  let today := HttpRequest.today req in
  let week_from_now := today + 7 in
  let month_from_now := today + 30 in
  let session_qs := qs_filter (owned_q user) (cook_sessions db) in
  [ Bucket.mk "Today"
      (count (qs_filter (λ s, bool_decide (CookSession.cooked_on s = today)) session_qs))
      (cooksession_list "?when=today");
    Bucket.mk "Next 7 days"
      (count (qs_filter (λ s, bool_decide (today < CookSession.cooked_on s)
                              && bool_decide (CookSession.cooked_on s ≤ week_from_now))
                session_qs))
      (cooksession_list "?when=week");
    Bucket.mk "Next 30 days"
      (count (qs_filter (λ s, bool_decide (today < CookSession.cooked_on s)
                              && bool_decide (CookSession.cooked_on s ≤ month_from_now))
                session_qs))
      (cooksession_list "?when=month");
    Bucket.mk "Past 30 days"
      (count (qs_filter (λ s, bool_decide (today - 30 ≤ CookSession.cooked_on s)
                              && bool_decide (CookSession.cooked_on s ≤ today))
                session_qs))
      (cooksession_list "?when=past30") ].

(** ** views.py: attachments to a target *)

Definition ALLOWED_TARGET_MODELS : gmap string ModelClass :=
  {[ "recipe" := cls_Recipe;
     "dish" := cls_Dish;
     "cooksession" := cls_CookSession;
     "cookresult" := cls_CookResult ]}.

(** The target a view has found: the views read its class and its key. *)
Module Target.
Record t := mk {
  model : ModelClass;
  pk : Z;
}.
End Target.

(** Whether [model.objects.filter(owned_q(user))] has a row of key [pk]. *)
Definition owned_exists (model : ModelClass) (user pk : Z) (db : DB) : bool :=
  match model with
  | cls_Recipe => in_queryset (qs_filter (owned_q user) (recipes db)) pk
  | cls_Dish => in_queryset (qs_filter (owned_q user) (dishes db)) pk
  | cls_CookSession => in_queryset (qs_filter (owned_q user) (cook_sessions db)) pk
  | cls_CookResult => in_queryset (qs_filter (owned_q user) (cook_results db)) pk
  | cls_Note => in_queryset (qs_filter (owned_q user) (notes db)) pk
  | cls_TrackedImage => in_queryset (qs_filter (owned_q user) (tracked_images db)) pk
  | cls_ReferenceURL => in_queryset (qs_filter (owned_q user) (reference_urls db)) pk
  | cls_PDFDocument => in_queryset (qs_filter (owned_q user) (pdf_documents db)) pk
  end.

Definition _get_target_or_404 (user : Z) (model_key : string) (pk : Z) : M Target.t :=
  match ALLOWED_TARGET_MODELS !! model_key with
  | None => raise Http404
  | Some model =>
      db ← get_db;
      if owned_exists model user pk db then mret (Target.mk model pk)
      else raise Http404
  end.

(** [not obj.created_by_id] *)
Definition no_id (created_by_id : option Z) : bool :=
  match created_by_id with
  | None => true
  | Some n => bool_decide (n = 0)
  end.

(** [form_valid] of the four views that attach to a target; the four bodies
    in [views.py] are the same. *)
Definition Target_form_valid {A} `{OwnedModel A, GenericTarget A, Model A, ModelInit A}
    (form : ModelForm A) (req : HttpRequest.t) (model_key : string)
    (target_obj : Target.t) (data : A) : M (HttpResponse A) :=
  let target_ct : ContentType := Target.model target_obj in
  let obj := construct_instance form data (init req data) in
  let obj := with_content_type target_ct obj in
  let obj := with_object_id (str (Target.pk target_obj)) obj in
  let obj :=
    if no_id (created_by obj)
    then with_created_by (Some (HttpRequest.user req)) obj else obj in
  _ ← save (HttpRequest.now req) None obj;
  mret (HttpResponseRedirect (target_detail model_key (Target.pk target_obj))).

(** [TargetContextMixin.dispatch] followed by the [get] or [post] of
    [generic.CreateView]. *)
Definition TargetCreateView {A} `{OwnedModel A, GenericTarget A, Model A, ModelInit A}
    (form : ModelForm A) (req : HttpRequest.t) (method : Method A)
    (model_key : string) (pk : Z) : M (HttpResponse A) :=
  target_obj ← _get_target_or_404 (HttpRequest.user req) model_key pk;
  match method with
  | HTTP_GET => mret (FormPage None)
  | HTTP_POST data =>
      db ← get_db;
      if is_valid form (HttpRequest.user req) db data
      then Target_form_valid form req model_key target_obj data
      else mret (FormPage None)
  end.

Definition TargetNoteCreateView := TargetCreateView NoteForTargetForm.

Definition TargetReferenceURLCreateView := TargetCreateView ReferenceURLForTargetForm.

Definition TargetTrackedImageCreateView := TargetCreateView TrackedImageForTargetForm.

Definition TargetPDFDocumentCreateView := TargetCreateView PDFDocumentForTargetForm.

(** One of the four lists of [TargetDetailView.get_context_data]:
    [objects.filter(content_type=ct, object_id=oid).filter(owned_q(user))]. *)
Definition target_attachments {A} `{Manager A, OwnedModel A, GenericTarget A}
    (req : HttpRequest.t) (target_obj : Target.t) (db : DB) : gmap Z A :=
  let ct : ContentType := Target.model target_obj in
  let oid := str (Target.pk target_obj) in
  qs_filter (owned_q (HttpRequest.user req))
    (qs_filter (λ a, bool_decide (content_type a = ct) && bool_decide (object_id a = oid))
       (objects db)).

(** The lists of a target as [TargetDetailView] shows them, after the
    [dispatch] of [TargetContextMixin]. *)
Definition TargetDetailView {A} `{Manager A, OwnedModel A, GenericTarget A}
    (req : HttpRequest.t) (model_key : string) (pk : Z) : M (gmap Z A) :=
  target_obj ← _get_target_or_404 (HttpRequest.user req) model_key pk;
  db ← get_db;
  mret (target_attachments req target_obj db).

(** ** What the statements below speak of *)

(** An annotated row is owned as the row it annotates. *)
Global Instance annotated_owned {A B} `{OwnedModel A} : OwnedModel (A * B) := {|
  created_by p := created_by p.1;
  with_created_by u p := (with_created_by u p.1, p.2);
|}.

(** No row of the queryset was created by the user [a]. *)
Definition hides {A} `{OwnedModel A} (a : Z) (qs : gmap Z A) : Prop :=
  ∀ pk r, qs !! pk = Some r → created_by r ≠ Some a.

(** No two rows of the table conflict: what the store keeps of the
    uniqueness the models declare. *)
Definition unique_rows {A} `{ModelMeta A} (t : gmap Z A) : Prop :=
  ∀ pk1 pk2 r1 r2,
    t !! pk1 = Some r1 → t !! pk2 = Some r2 → conflicts r1 r2 = true → pk1 = pk2.

(** The results of the session [session_pk]. *)
Definition results_of (session_pk : Z) (db : DB) : gmap Z CookResult.t :=
  qs_filter (λ r, bool_decide (CookResult.cook_session r = session_pk)) (cook_results db).

(** Requests to the result-edit endpoint of one session, one after the
    other: the responses, and the store at the end. *)
Fixpoint run_edits (calls : list (HttpRequest.t * Method CookResult.t)) (session_pk : Z)
    (db : DB) : list (Res (HttpResponse CookResult.t)) * DB :=
  match calls with
  | [] => ([], db)
  | (req, method) :: rest =>
      let '(r, db1) := CookResultCreateUpdateView_dispatch req method session_pk db in
      let '(rs, db2) := run_edits rest session_pk db1 in
      (r :: rs, db2)
  end.

Definition is_ok {A} (r : Res A) : Prop :=
  match r with
  | Ok _ => True
  | Raise _ => False
  end.

(** The bucket as the specification words it: the sessions the user owns or
    nobody owns whose [cooked_on] is in the window. *)
Definition spec_bucket (user : Z) (window : Z → Prop) `{∀ d, Decision (window d)}
    (db : DB) : gmap Z CookSession.t :=
  filter
    (λ kv, (CookSession.created_by kv.2 = Some user ∨ CookSession.created_by kv.2 = None)
           ∧ window (CookSession.cooked_on kv.2))
    (cook_sessions db).

(** The request of the same user at the same time with the query string of
    a bucket's link. *)
Definition with_when (when : string) (req : HttpRequest.t) : HttpRequest.t :=
  HttpRequest.mk (HttpRequest.user req) {[ "when" := when ]}
    (HttpRequest.now req) (HttpRequest.today req) (HttpRequest.uuid4 req).

(** The owner of the row of key [pk] of a model, when there is such a row. *)
Definition row_owner (model : ModelClass) (pk : Z) (db : DB) : option (option Z) :=
  match model with
  | cls_Recipe => Recipe.created_by <$> recipes db !! pk
  | cls_Dish => Dish.created_by <$> dishes db !! pk
  | cls_CookSession => CookSession.created_by <$> cook_sessions db !! pk
  | cls_CookResult => CookResult.created_by <$> cook_results db !! pk
  | cls_Note => Note.created_by <$> notes db !! pk
  | cls_TrackedImage => TrackedImage.created_by <$> tracked_images db !! pk
  | cls_ReferenceURL => ReferenceURL.created_by <$> reference_urls db !! pk
  | cls_PDFDocument => PDFDocument.created_by <$> pdf_documents db !! pk
  end.

(** The row the result-edit endpoint creates for a session that has no
    result: the defaults of the fields, the session, and the user. *)
Definition new_result (req : HttpRequest.t) (session_pk : Z) : CookResult.t :=
  CookResult.mk (Some (HttpRequest.user req)) (HttpRequest.now req) (HttpRequest.now req)
    session_pk EXPERIMENT None None None None false "" "" "".

(** The store with the row [r] written under [pk] in the table of results. *)
Definition put_result (pk : Z) (r : CookResult.t) (db : DB) : DB :=
  with_objects (<[pk := r]> (cook_results db)) db.

(** The row of a result after a valid submission [data] to the result-edit
    endpoint: the fields of the form are written, and [updated_at]. *)
Definition edited (req : HttpRequest.t) (data r : CookResult.t) : CookResult.t :=
  with_updated_at (HttpRequest.now req) (construct_instance CookResultForm data r).

(** What the result-edit endpoint answers, and the store it leaves, once the
    result [r] of key [pk] is at hand in the store [db]. *)
Definition served (req : HttpRequest.t) (method : Method CookResult.t)
    (pk : Z) (r : CookResult.t) (db : DB) : Res (HttpResponse CookResult.t) * DB :=
  match method with
  | HTTP_GET => (Ok (FormPage (Some (pk, r))), db)
  | HTTP_POST data =>
      if is_valid CookResultForm (HttpRequest.user req) db data
      then (Ok (HttpResponseRedirect (cooksession_detail (CookResult.cook_session r))),
            put_result pk (edited req data r) db)
      else (Ok (FormPage (Some (pk, r))), db)
  end.

(** [uniq_dish_per_owner_name] as the store keeps it: two rows of dishes
    with the same user as [created_by] and the same name are one row. *)
Definition uniq_dish_per_owner_name (db : DB) : Prop :=
  ∀ k1 k2 d1 d2 u,
    dishes db !! k1 = Some d1 → dishes db !! k2 = Some d2 →
    Dish.created_by d1 = Some u → Dish.created_by d2 = Some u →
    Dish.name d1 = Dish.name d2 → k1 = k2.

(** The row [DishCreateView] saves for a valid submission [data]. *)
Definition created_dish (req : HttpRequest.t) (data : Dish.t) : Dish.t :=
  Dish.mk (Some (HttpRequest.user req)) (HttpRequest.now req) (HttpRequest.now req)
    (Dish.name data) (Dish.description data) (Dish.default_recipe data)
    (Dish.is_active data).

(** [sep.join(pieces)] for a separator of one character. *)
Fixpoint join (sep : ascii) (pieces : list string) : string :=
  match pieces with
  | [] => EmptyString
  | [piece] => piece
  | piece :: rest => piece +:+ String sep (join sep rest)
  end.

(** Whether the character occurs in the text. *)
Fixpoint has_char (c : ascii) (s : string) : bool :=
  match s with
  | EmptyString => false
  | String c' s' => bool_decide (c' = c) || has_char c s'
  end.

(** [seg] is the final path segment of [name]: it has no slash, and [name]
    is [seg] or ends with a slash followed by [seg]. *)
Definition final_segment (name seg : string) : Prop :=
  has_char "/" seg = false
  ∧ (name = seg ∨ ∃ dir, name = dir +:+ String "/" seg).

(** What a successful attachment to the target of class [model] and key
    [pk] leaves in the table of the attachment: one new row under the key
    [k], bound to the target and stamped with the requesting user, and every
    other row as it was. *)
Definition attached {A} `{Manager A, OwnedModel A, GenericTarget A}
    (req : HttpRequest.t) (model : ModelClass) (pk : Z) (db db' : DB) (k : Z) : Prop :=
  objects (A:=A) db !! k = None
  ∧ (∃ row : A,
       objects db' !! k = Some row
       ∧ content_type row = model
       ∧ object_id row = str pk
       ∧ created_by row = Some (HttpRequest.user req))
  ∧ ∀ j, j ≠ k → objects (A:=A) db' !! j = objects (A:=A) db !! j.

(** The row [CookSessionCreateView] saves for a valid submission [data]. *)
Definition created_session (req : HttpRequest.t) (data : CookSession.t) : CookSession.t :=
  CookSession.mk (Some (HttpRequest.user req)) (HttpRequest.now req) (HttpRequest.now req)
    (CookSession.dish data) (CookSession.recipe_used data) (CookSession.cooked_on data)
    (CookSession.meal_type data) (CookSession.method data)
    (CookSession.servings_made data) (CookSession.duration_minutes data)
    (CookSession.summary data) (CookSession.is_active data).

(** ** Concrete stores and requests

    Two users, 1 and 2, and a store with one dish and one session of it that
    nobody owns. *)

Definition req_alice : HttpRequest.t := HttpRequest.mk 1 ∅ 100 20 7.

Definition req_bob : HttpRequest.t := HttpRequest.mk 2 ∅ 200 20 8.

Definition shared_dish : Dish.t := Dish.mk None 0 0 "Oven Bacon" "" None true.

Definition shared_session : CookSession.t :=
  CookSession.mk None 0 0 1 None 20 MEAL_OTHER METHOD_OTHER None None "" true.

Definition db_shared : DB :=
  mkDB ∅ {[ 1 := shared_dish ]} {[ 1 := shared_session ]} ∅ ∅ ∅ ∅ ∅.

(** The result user 1 gets for the shared session at time 100. *)
Definition alice_result : CookResult.t :=
  CookResult.mk (Some 1) 100 100 1 EXPERIMENT None None None None false "" "" "".

Definition db_alice_result : DB :=
  mkDB ∅ {[ 1 := shared_dish ]} {[ 1 := shared_session ]} {[ 1 := alice_result ]}
    ∅ ∅ ∅ ∅.

(** What user 2 submits to the result-edit endpoint, and the row after it. *)
Definition bob_edit : CookResult.t :=
  CookResult.mk None 0 0 0 FAIL (Some 2%N) None None None false "" "burnt" "".

Definition alice_result_edited : CookResult.t :=
  CookResult.mk (Some 1) 100 200 1 FAIL (Some 2%N) None None None false "" "burnt" "".

Definition db_alice_result_edited : DB :=
  mkDB ∅ {[ 1 := shared_dish ]} {[ 1 := shared_session ]}
    {[ 1 := alice_result_edited ]} ∅ ∅ ∅ ∅.

(** The shared dish saved once more as a new row at time 5, and the store
    after that save. *)
Definition shared_dish_again : Dish.t := Dish.mk None 0 5 "Oven Bacon" "" None true.

Definition db_two_shared_dishes : DB :=
  mkDB ∅ {[ 1 := shared_dish; 2 := shared_dish_again ]} {[ 1 := shared_session ]}
    ∅ ∅ ∅ ∅ ∅.

(** An uploaded PDF with no [original_filename] yet. *)
Definition card_pdf : PDFDocument.t :=
  PDFDocument.mk (Some 1) 0 0 77 cls_Recipe "1" PDF_RECIPE "Card" ""
    "recipes/scans/card.pdf" "" None 0.

(** A note as the form of the target page submits it. *)
Definition hello_note : Note.t := Note.mk None 0 0 cls_Note "" "Note" "Hello" false.

(** A store where user 1 has a recipe, a dish with that recipe as its
    default, and a session of the dish with the recipe. *)

Definition bacon_recipe : Recipe.t :=
  Recipe.mk (Some 1) 0 0 "Oven Bacon" "" "" "" "" "" None None false true.

Definition bacon_dish : Dish.t := Dish.mk (Some 1) 0 0 "Oven Bacon" "" (Some 1) true.

Definition bacon_session : CookSession.t :=
  CookSession.mk (Some 1) 0 0 1 (Some 1) 20 MEAL_OTHER METHOD_OTHER None None "" true.

Definition db_bacon : DB :=
  mkDB {[ 1 := bacon_recipe ]} {[ 1 := bacon_dish ]} {[ 1 := bacon_session ]}
    ∅ ∅ ∅ ∅ ∅.

(** ** Querysets and keys *)

Section Querysets.
Context {A : Type}.
Implicit Types (q : A → bool) (qs : gmap Z A) (pk : Z) (r : A).

Lemma lookup_qs_filter q qs pk r :
  qs_filter q qs !! pk = Some r ↔ qs !! pk = Some r ∧ q r = true.
Proof. unfold qs_filter. by rewrite map_lookup_filter_Some. Qed.

Lemma lookup_qs_filter_None q qs pk :
  qs_filter q qs !! pk = None ↔ ∀ r, qs !! pk = Some r → q r = false.
Proof.
  unfold qs_filter. rewrite map_lookup_filter_None. split.
  - intros [Hn | Hf] r Hr; [congruence |].
    specialize (Hf r Hr). simpl in Hf. by destruct (q r).
  - intros Hf. destruct (qs !! pk) as [r |] eqn:E; [right | by left].
    intros r' [= <-]. simpl. rewrite (Hf r); done.
Qed.

Lemma in_queryset_true qs pk : in_queryset qs pk = true ↔ is_Some (qs !! pk).
Proof. unfold in_queryset. by rewrite bool_decide_eq_true. Qed.

Lemma in_queryset_false qs pk : in_queryset qs pk = false ↔ qs !! pk = None.
Proof.
  unfold in_queryset. rewrite bool_decide_eq_false, <- eq_None_not_Some. done.
Qed.

Lemma max_keys_bound (l : list (Z * A)) k r :
  (k, r) ∈ l → k ≤ foldr Z.max 0 l.*1.
Proof.
  induction l as [| [k' r'] l IH]; intros Hin.
  - by apply elem_of_nil in Hin.
  - rewrite fmap_cons. cbn [foldr fst].
    apply elem_of_cons in Hin as [[= -> ->] | Hin]; [lia |].
    specialize (IH Hin). lia.
Qed.

Lemma next_pk_above qs pk r : qs !! pk = Some r → pk < next_pk qs.
Proof.
  intros Hr. apply elem_of_map_to_list in Hr.
  apply max_keys_bound in Hr. unfold next_pk. lia.
Qed.

Lemma next_pk_fresh qs : qs !! next_pk qs = None.
Proof.
  destruct (qs !! next_pk qs) as [r |] eqn:E; [| done].
  apply next_pk_above in E. lia.
Qed.

End Querysets.

Lemma owned_q_true {A} `{OwnedModel A} (user : Z) (r : A) :
  owned_q user r = true ↔ created_by r = Some user ∨ created_by r = None.
Proof.
  unfold owned_q. rewrite orb_true_iff, !bool_decide_eq_true. done.
Qed.

Lemma owned_q_other {A} `{OwnedModel A} (a b : Z) (r : A) :
  a ≠ b → created_by r = Some a → owned_q b r = false.
Proof.
  intros Hab Hr. apply not_true_iff_false. rewrite owned_q_true.
  intros [Hu | Hn]; congruence.
Qed.

Lemma hides_owned {A} `{OwnedModel A} (a user : Z) (t : gmap Z A) :
  user ≠ a → hides a (qs_filter (owned_q user) t).
Proof.
  intros Hne pk r [_ Hq]%lookup_qs_filter Ha.
  by rewrite (owned_q_other a user r) in Hq.
Qed.

Lemma hides_qs_filter {A} `{OwnedModel A} (a : Z) (q : A → bool) (qs : gmap Z A) :
  hides a qs → hides a (qs_filter q qs).
Proof. intros Hh pk r [Hr _]%lookup_qs_filter. by apply (Hh pk). Qed.

Lemma hides_annotate (a : Z) (db : DB) (qs : gmap Z Dish.t) :
  hides a qs → hides a (annotate_session_count db qs).
Proof.
  intros Hh pk [d n] Hr. unfold annotate_session_count in Hr.
  rewrite map_lookup_imap in Hr.
  destruct (qs !! pk) as [d' |] eqn:E; simpl in Hr; [| done].
  injection Hr as -> _. simpl. by apply (Hh pk).
Qed.

(** ** C1: what a user's querysets hide and what they include *)

Ltac solve_hides :=
  repeat case_match;
  repeat first
    [ by apply hides_owned
    | apply hides_annotate
    | apply hides_qs_filter ].

Lemma hides_RecipeListView (a : Z) (req : HttpRequest.t) (db : DB) :
  HttpRequest.user req ≠ a → hides a (RecipeListView_get_queryset req db).
Proof.
  intros Hne. unfold RecipeListView_get_queryset.
  solve_hides.
Qed.

Lemma hides_DishListView (a : Z) (req : HttpRequest.t) (db : DB) :
  HttpRequest.user req ≠ a → hides a (DishListView_get_queryset req db).
Proof.
  intros Hne. unfold DishListView_get_queryset.
  solve_hides.
Qed.

Lemma hides_CookSessionListView (a : Z) (req : HttpRequest.t) (db : DB) :
  HttpRequest.user req ≠ a → hides a (CookSessionListView_get_queryset req db).
Proof.
  intros Hne. unfold CookSessionListView_get_queryset.
  solve_hides.
Qed.

Lemma UpdateView_404 {A} `{Manager A, OwnedModel A, Model A}
    (form : ModelForm A) (url : Z → Url) (req : HttpRequest.t) (method : Method A)
    (pk : Z) (db : DB) :
  OwnedQuerysetMixin_get_queryset req db !! pk = None →
  UpdateView form url req method pk db = (Raise Http404, db).
Proof.
  intros Hn. unfold UpdateView, get_object_or_404, mbind, M_bind, get_db.
  by rewrite Hn.
Qed.

Lemma mixin_queryset_other {A} `{Manager A, OwnedModel A}
    (a : Z) (req : HttpRequest.t) (db : DB) (pk : Z) (r : A) :
  HttpRequest.user req ≠ a → objects db !! pk = Some r → created_by r = Some a →
  OwnedQuerysetMixin_get_queryset req db !! pk = None.
Proof.
  intros Hne Hr Ha. apply lookup_qs_filter_None. intros r' Hr'.
  assert (r' = r) as -> by congruence. by apply (owned_q_other a).
Qed.




(** ** C2: attaching to a target that is not allowed, not there or not owned *)

Lemma ALLOWED_TARGET_MODELS_None (model_key : string) :
  model_key ∉ ["recipe"; "dish"; "cooksession"; "cookresult"] →
  ALLOWED_TARGET_MODELS !! model_key = None.
Proof.
  rewrite !not_elem_of_cons. intros (H1 & H2 & H3 & H4 & _).
  unfold ALLOWED_TARGET_MODELS.
  rewrite !lookup_insert_ne by done. by apply lookup_singleton_ne.
Qed.

Lemma owned_lookup_None {A} `{OwnedModel A} (t : gmap Z A) (user pk : Z) :
  created_by <$> t !! pk = None
  ∨ (∃ o, created_by <$> t !! pk = Some (Some o) ∧ o ≠ user) →
  in_queryset (qs_filter (owned_q user) t) pk = false.
Proof.
  intros Hrow. apply in_queryset_false, lookup_qs_filter_None. intros r Hr.
  rewrite Hr in Hrow. simpl in Hrow. destruct Hrow as [[=] | (o & [= Ho] & Hne)].
  by apply (owned_q_other o).
Qed.

Lemma owned_exists_false (model : ModelClass) (user pk : Z) (db : DB) :
  row_owner model pk db = None
  ∨ (∃ o, row_owner model pk db = Some (Some o) ∧ o ≠ user) →
  owned_exists model user pk db = false.
Proof.
  destruct model; simpl; intros Hrow.
  - by apply (owned_lookup_None (recipes db)).
  - by apply (owned_lookup_None (dishes db)).
  - by apply (owned_lookup_None (cook_sessions db)).
  - by apply (owned_lookup_None (cook_results db)).
  - by apply (owned_lookup_None (notes db)).
  - by apply (owned_lookup_None (tracked_images db)).
  - by apply (owned_lookup_None (reference_urls db)).
  - by apply (owned_lookup_None (pdf_documents db)).
Qed.

Lemma _get_target_or_404_raises (user : Z) (model_key : string) (pk : Z) (db : DB) :
  model_key ∉ ["recipe"; "dish"; "cooksession"; "cookresult"]
  ∨ (∃ model, ALLOWED_TARGET_MODELS !! model_key = Some model
       ∧ (row_owner model pk db = None
          ∨ ∃ o, row_owner model pk db = Some (Some o) ∧ o ≠ user)) →
  _get_target_or_404 user model_key pk db = (Raise Http404, db).
Proof.
  unfold _get_target_or_404. intros [Hkey | (model & Hmodel & Hrow)].
  - by rewrite ALLOWED_TARGET_MODELS_None.
  - rewrite Hmodel. unfold mbind, M_bind, get_db.
    by rewrite owned_exists_false.
Qed.

Lemma TargetCreateView_raises {A} `{OwnedModel A, GenericTarget A, Model A, ModelInit A}
    (form : ModelForm A) (req : HttpRequest.t) (method : Method A)
    (model_key : string) (pk : Z) (db : DB) (e : Exc) :
  _get_target_or_404 (HttpRequest.user req) model_key pk db = (Raise e, db) →
  TargetCreateView form req method model_key pk db = (Raise e, db).
Proof. intros Ht. unfold TargetCreateView, mbind, M_bind. by rewrite Ht. Qed.

(** C2. A request to one of the four "create for target" views whose
    [model_key] is none of recipe, dish, cooksession and cookresult, or
    whose target row does not exist, or whose target row has a [created_by]
    that is neither the requesting user nor null, raises [Http404] (for
    either method and whatever is submitted), and the store is the one
    before the request: no attachment row is created. *)
Theorem C2_attach_not_found (req : HttpRequest.t) (model_key : string) (pk : Z) (db : DB) :
  model_key ∉ ["recipe"; "dish"; "cooksession"; "cookresult"]
  ∨ (∃ model, ALLOWED_TARGET_MODELS !! model_key = Some model
       ∧ (row_owner model pk db = None
          ∨ ∃ o, row_owner model pk db = Some (Some o) ∧ o ≠ HttpRequest.user req)) →
  (∀ method, TargetNoteCreateView req method model_key pk db = (Raise Http404, db))
  ∧ (∀ method, TargetReferenceURLCreateView req method model_key pk db = (Raise Http404, db))
  ∧ (∀ method, TargetTrackedImageCreateView req method model_key pk db = (Raise Http404, db))
  ∧ (∀ method, TargetPDFDocumentCreateView req method model_key pk db = (Raise Http404, db)).
Proof.
  intros Hbad. apply _get_target_or_404_raises in Hbad.
  repeat split; intros method; by apply TargetCreateView_raises.
Qed.

Lemma C2_attach_not_found_witness :
  (∀ method, TargetNoteCreateView req_bob method "cookresult" 1 db_alice_result
             = (Raise Http404, db_alice_result))
  ∧ (∀ method, TargetPDFDocumentCreateView req_bob method "note" 1 db_alice_result
               = (Raise Http404, db_alice_result))
  ∧ (∀ method, TargetTrackedImageCreateView req_bob method "recipe" 1 db_alice_result
               = (Raise Http404, db_alice_result)).
Proof.
  split; [| split].
  - apply (C2_attach_not_found req_bob "cookresult" 1 db_alice_result).
    right. exists cls_CookResult. split; [reflexivity |].
    right. exists 1. split; [reflexivity | simpl; lia].
  - apply (C2_attach_not_found req_bob "note" 1 db_alice_result).
    left. rewrite !not_elem_of_cons. repeat split; try discriminate.
    apply not_elem_of_nil.
  - apply (C2_attach_not_found req_bob "recipe" 1 db_alice_result).
    right. exists cls_Recipe. split; [reflexivity |]. left. reflexivity.
Defined.

(** ** Saving under the uniqueness the models declare *)

Lemma violates_false {A} `{ModelMeta A} (t : gmap Z A) (pk : option Z) (obj : A) :
  violates t pk obj = false ↔
  ∀ k r, t !! k = Some r → Some k ≠ pk → conflicts r obj = false.
Proof.
  unfold violates. rewrite bool_decide_eq_false, map_Exists_lookup. split.
  - intros Hno k r Hr Hk. apply not_true_iff_false. intros Hc.
    apply Hno. by exists k, r.
  - intros Hall (k & r & Hr & Hk & Hc). by rewrite (Hall k r) in Hc.
Qed.

Lemma violates_true {A} `{ModelMeta A} (t : gmap Z A) (pk : option Z) (obj : A) k r :
  t !! k = Some r → Some k ≠ pk → conflicts r obj = true → violates t pk obj = true.
Proof.
  intros Hr Hk Hc. unfold violates. rewrite bool_decide_eq_true.
  apply map_Exists_lookup. by exists k, r.
Qed.

(** ** C3 and C10: the result-edit endpoint *)

Lemma lookup_results_of (s : Z) (db : DB) (pk : Z) (r : CookResult.t) :
  results_of s db !! pk = Some r ↔
  cook_results db !! pk = Some r ∧ CookResult.cook_session r = s.
Proof.
  unfold results_of. by rewrite lookup_qs_filter, bool_decide_eq_true.
Qed.

Lemma results_of_singleton (s : Z) (db : DB) (pk : Z) (r : CookResult.t) :
  unique_rows (cook_results db) →
  cook_results db !! pk = Some r → CookResult.cook_session r = s →
  results_of s db = {[ pk := r ]}.
Proof.
  intros Hu Hr Hs. apply map_eq. intros k.
  destruct (decide (k = pk)) as [-> | Hne].
  - rewrite lookup_singleton_eq. by apply lookup_results_of.
  - rewrite lookup_singleton_ne by done.
    destruct (results_of s db !! k) as [r' |] eqn:E; [| done].
    apply lookup_results_of in E as [Hr' Hs']. exfalso. apply Hne.
    apply (Hu k pk r' r Hr' Hr). simpl. apply bool_decide_eq_true. congruence.
Qed.

Lemma results_of_empty (s : Z) (db : DB) :
  (∀ pk r, cook_results db !! pk = Some r → CookResult.cook_session r ≠ s) →
  results_of s db = ∅.
Proof.
  intros Hnone. apply map_eq. intros k. rewrite lookup_empty.
  destruct (results_of s db !! k) as [r |] eqn:E; [| done].
  apply lookup_results_of in E as [Hr Hs]. by destruct (Hnone k r).
Qed.

Lemma get_or_create_found (req : HttpRequest.t) (s : Z) (db : DB) (pk : Z) (r : CookResult.t) :
  unique_rows (cook_results db) →
  cook_results db !! pk = Some r → CookResult.cook_session r = s →
  get_or_create req s db = (Ok (pk, r), db).
Proof.
  intros Hu Hr Hs. unfold get_or_create, mbind, M_bind, get_db.
  fold (results_of s db). rewrite (results_of_singleton s db pk r) by done.
  by rewrite map_to_list_singleton.
Qed.

Lemma get_or_create_new (req : HttpRequest.t) (s : Z) (db : DB) :
  (∀ pk r, cook_results db !! pk = Some r → CookResult.cook_session r ≠ s) →
  get_or_create req s db
  = (Ok (next_pk (cook_results db), new_result req s),
     put_result (next_pk (cook_results db)) (new_result req s) db).
Proof.
  intros Hnone. unfold get_or_create, mbind, M_bind, get_db.
  fold (results_of s db). rewrite results_of_empty by done.
  rewrite map_to_list_empty. cbn [save CookResult_model]. unfold Model_save.
  fold (new_result req s).
  assert (violates (objects db) None (with_updated_at (HttpRequest.now req) (new_result req s))
          = false) as ->; [| done].
  apply violates_false. intros k r Hr _. simpl. apply bool_decide_eq_false.
  by apply (Hnone k r).
Qed.

Lemma cook_session_edited (req : HttpRequest.t) (data r : CookResult.t) :
  CookResult.cook_session (edited req data r) = CookResult.cook_session r.
Proof. reflexivity. Qed.

Lemma created_by_edited (req : HttpRequest.t) (data r : CookResult.t) :
  CookResult.created_by (edited req data r) = CookResult.created_by r.
Proof. reflexivity. Qed.

Lemma dispatch_after_get_or_create (req : HttpRequest.t) (method : Method CookResult.t)
    (s : Z) (sess : CookSession.t) (db db1 : DB) (pk : Z) (r : CookResult.t) :
  cook_sessions db !! s = Some sess →
  owned_q (HttpRequest.user req) sess = true →
  get_or_create req s db = (Ok (pk, r), db1) →
  (∀ k r', cook_results db1 !! k = Some r' → k ≠ pk →
           CookResult.cook_session r' ≠ CookResult.cook_session r) →
  CookResultCreateUpdateView_dispatch req method s db = served req method pk r db1.
Proof.
  intros Hs Ho Hg Hothers.
  unfold CookResultCreateUpdateView_dispatch, mbind, M_bind, get_db, get_object_or_404.
  assert (qs_filter (owned_q (HttpRequest.user req)) (cook_sessions db) !! s = Some sess)
    as -> by by apply lookup_qs_filter.
  unfold mret, M_ret. rewrite Hg. unfold served.
  destruct method as [| data]; [done |].
  destruct (is_valid CookResultForm (HttpRequest.user req) db1 data); [| done].
  cbn [save CookResult_model]. unfold Model_save.
  fold (edited req data r).
  assert (violates (objects db1) (Some pk) (edited req data r) = false) as ->; [| done].
  apply violates_false. intros k r' Hr' Hk. simpl. apply bool_decide_eq_false.
  apply (Hothers k r' Hr'). congruence.
Qed.

Lemma dispatch_found (req : HttpRequest.t) (method : Method CookResult.t)
    (s : Z) (sess : CookSession.t) (db : DB) (pk : Z) (r : CookResult.t) :
  unique_rows (cook_results db) →
  cook_sessions db !! s = Some sess →
  owned_q (HttpRequest.user req) sess = true →
  cook_results db !! pk = Some r → CookResult.cook_session r = s →
  CookResultCreateUpdateView_dispatch req method s db = served req method pk r db.
Proof.
  intros Hu Hs Ho Hr Hrs.
  apply (dispatch_after_get_or_create req method s sess db db pk r); try done.
  - by apply get_or_create_found.
  - intros k r' Hr' Hk Heq. apply Hk. apply (Hu k pk r' r Hr' Hr).
    simpl. by apply bool_decide_eq_true.
Qed.

Lemma dispatch_new (req : HttpRequest.t) (method : Method CookResult.t)
    (s : Z) (sess : CookSession.t) (db : DB) :
  cook_sessions db !! s = Some sess →
  owned_q (HttpRequest.user req) sess = true →
  (∀ pk r, cook_results db !! pk = Some r → CookResult.cook_session r ≠ s) →
  CookResultCreateUpdateView_dispatch req method s db
  = served req method (next_pk (cook_results db)) (new_result req s)
      (put_result (next_pk (cook_results db)) (new_result req s) db).
Proof.
  intros Hs Ho Hnone.
  apply (dispatch_after_get_or_create req method s sess); try done.
  - by apply get_or_create_new.
  - intros k r' Hr' Hk. simpl in Hr'. rewrite lookup_insert_ne in Hr' by done.
    by apply (Hnone k r').
Qed.

Lemma unique_rows_put_result (pk : Z) (r : CookResult.t) (db : DB) :
  unique_rows (cook_results db) →
  (∀ k r', cook_results db !! k = Some r' → k ≠ pk →
           CookResult.cook_session r' ≠ CookResult.cook_session r) →
  unique_rows (cook_results (put_result pk r db)).
Proof.
  intros Hu Hothers k1 k2 r1 r2. simpl. intros H1 H2 Hc.
  apply bool_decide_eq_true in Hc.
  destruct (decide (k1 = pk)) as [-> | Hn1], (decide (k2 = pk)) as [-> | Hn2];
    [done | | |].
  - rewrite lookup_insert_eq in H1. rewrite lookup_insert_ne in H2 by done.
    injection H1 as <-. by destruct (Hothers k2 r2).
  - rewrite lookup_insert_eq in H2. rewrite lookup_insert_ne in H1 by done.
    injection H2 as <-. by destruct (Hothers k1 r1).
  - rewrite lookup_insert_ne in H1, H2 by done.
    apply (Hu k1 k2 r1 r2 H1 H2). simpl. by apply bool_decide_eq_true.
Qed.

(** The invariant of the endpoint on the session [s]: results are unique per
    session, and the session has the result of key [pk]. *)
Lemma served_keeps (req : HttpRequest.t) (method : Method CookResult.t)
    (s pk : Z) (r : CookResult.t) (db : DB) :
  unique_rows (cook_results db) →
  cook_results db !! pk = Some r → CookResult.cook_session r = s →
  is_ok (served req method pk r db).1
  ∧ unique_rows (cook_results (served req method pk r db).2)
  ∧ cook_sessions (served req method pk r db).2 = cook_sessions db
  ∧ ∃ r', cook_results (served req method pk r db).2 !! pk = Some r'
          ∧ CookResult.cook_session r' = s.
Proof.
  intros Hu Hr Hs. unfold served.
  destruct method as [| data]; [simpl; by eauto 10 |].
  destruct (is_valid CookResultForm (HttpRequest.user req) db data);
    [| simpl; by eauto 10].
  simpl. repeat split.
  - apply unique_rows_put_result; [done |].
    intros k r' Hr' Hk Heq. apply Hk. apply (Hu k pk r' r Hr' Hr).
    simpl. apply bool_decide_eq_true. by rewrite Heq, cook_session_edited.
  - exists (edited req data r). by rewrite lookup_insert_eq.
Qed.

Lemma dispatch_keeps (req : HttpRequest.t) (method : Method CookResult.t)
    (s : Z) (sess : CookSession.t) (db : DB) :
  unique_rows (cook_results db) →
  cook_sessions db !! s = Some sess →
  owned_q (HttpRequest.user req) sess = true →
  is_ok (CookResultCreateUpdateView_dispatch req method s db).1
  ∧ unique_rows (cook_results (CookResultCreateUpdateView_dispatch req method s db).2)
  ∧ cook_sessions (CookResultCreateUpdateView_dispatch req method s db).2 = cook_sessions db
  ∧ ∃ pk r', cook_results (CookResultCreateUpdateView_dispatch req method s db).2 !! pk
             = Some r' ∧ CookResult.cook_session r' = s.
Proof.
  intros Hu Hs Ho.
  destruct (map_choose_or_empty (results_of s db)) as [(pk & r & Hr) | Hempty].
  - apply lookup_results_of in Hr as [Hr Hrs].
    rewrite (dispatch_found req method s sess db pk r) by done.
    destruct (served_keeps req method s pk r db) as (? & ? & ? & ?); by eauto 10.
  - assert (∀ pk r, cook_results db !! pk = Some r → CookResult.cook_session r ≠ s)
      as Hnone.
    { intros pk r Hr Hrs.
      assert (results_of s db !! pk = Some r) as E by by apply lookup_results_of.
      by rewrite Hempty in E. }
    rewrite (dispatch_new req method s sess db) by done.
    set (pk := next_pk (cook_results db)).
    set (db1 := put_result pk (new_result req s) db).
    assert (unique_rows (cook_results db1)) as Hu1.
    { apply unique_rows_put_result; [done |].
      intros k r' Hr' _. by apply (Hnone k r'). }
    assert (cook_results db1 !! pk = Some (new_result req s)) as Hr1
      by (simpl; apply lookup_insert_eq).
    destruct (served_keeps req method s pk (new_result req s) db1 Hu1 Hr1 eq_refl)
      as (? & ? & Hsess & ?).
    repeat split; [done | done | by rewrite Hsess | by eauto].
Qed.

Lemma run_edits_keeps (calls : list (HttpRequest.t * Method CookResult.t))
    (s : Z) (sess : CookSession.t) (db : DB) :
  unique_rows (cook_results db) →
  cook_sessions db !! s = Some sess →
  Forall (λ c, owned_q (HttpRequest.user c.1) sess = true) calls →
  Forall is_ok (run_edits calls s db).1
  ∧ length (run_edits calls s db).1 = length calls
  ∧ unique_rows (cook_results (run_edits calls s db).2)
  ∧ ((∃ pk r, cook_results db !! pk = Some r ∧ CookResult.cook_session r = s)
     ∨ calls ≠ [] →
     ∃ pk r, cook_results (run_edits calls s db).2 !! pk = Some r
             ∧ CookResult.cook_session r = s).
Proof.
  intros Hu Hs Hcalls. revert db Hu Hs.
  induction Hcalls as [| [req method] calls Ho Hcalls IH]; intros db Hu Hs.
  - simpl. repeat split; [constructor | done |]. by intros [? | ?].
  - simpl in Ho. simpl.
    destruct (dispatch_keeps req method s sess db Hu Hs Ho)
      as (Hok & Hu1 & Hs1 & Hhas).
    destruct (CookResultCreateUpdateView_dispatch req method s db) as [resp db1] eqn:E.
    simpl in Hok, Hu1, Hs1, Hhas.
    assert (cook_sessions db1 !! s = Some sess) as Hs1' by by rewrite Hs1.
    destruct (IH db1 Hu1 Hs1') as (Hoks & Hlen & Hu2 & Hkeep).
    destruct (run_edits calls s db1) as [resps db2] eqn:E2. simpl in *.
    repeat split; [by constructor | by rewrite Hlen | done |].
    intros _. apply Hkeep. by left.
Qed.

Lemma unique_rows_empty {A} `{ModelMeta A} : unique_rows (∅ : gmap Z A).
Proof. intros k1 k2 r1 r2 H1. by rewrite lookup_empty in H1. Qed.

Lemma unique_rows_singleton {A} `{ModelMeta A} (pk : Z) (r : A) :
  unique_rows ({[ pk := r ]} : gmap Z A).
Proof.
  intros k1 k2 r1 r2 [-> _]%lookup_singleton_Some [-> _]%lookup_singleton_Some _.
  done.
Qed.

Lemma count_results_of_one (s : Z) (db : DB) (pk : Z) (r : CookResult.t) :
  unique_rows (cook_results db) →
  cook_results db !! pk = Some r → CookResult.cook_session r = s →
  count (results_of s db) = 1%nat.
Proof.
  intros Hu Hr Hs. rewrite (results_of_singleton s db pk r) by done.
  unfold count. apply map_size_singleton.
Qed.

(** C3. For a session that the requesting users can see, in a store where
    no session has two results, any sequence of one or more requests to the
    result-edit endpoint (GET, or POST with whatever is submitted) is
    answered without an exception, request by request, and leaves exactly
    one CookResult row for the session. When the session has no result, a
    GET creates the row of the defaults (the four ratings empty, the outcome
    EXPERIMENT, for that session) and serves the form for it. *)
Theorem C3_result_edit_get_or_create
    (calls : list (HttpRequest.t * Method CookResult.t))
    (s : Z) (sess : CookSession.t) (db : DB) :
  unique_rows (cook_results db) →
  cook_sessions db !! s = Some sess →
  Forall (λ c, owned_q (HttpRequest.user c.1) sess = true) calls →
  calls ≠ [] →
  (Forall is_ok (run_edits calls s db).1
   ∧ length (run_edits calls s db).1 = length calls
   ∧ count (results_of s (run_edits calls s db).2) = 1%nat)
  ∧ (∀ req,
       owned_q (HttpRequest.user req) sess = true →
       count (results_of s db) = 0%nat →
       CookResultCreateUpdateView_dispatch req HTTP_GET s db
       = (Ok (FormPage (Some (next_pk (cook_results db), new_result req s))),
          put_result (next_pk (cook_results db)) (new_result req s) db)
       ∧ cook_results db !! next_pk (cook_results db) = None
       ∧ CookResult.cook_session (new_result req s) = s
       ∧ CookResult.outcome (new_result req s) = EXPERIMENT
       ∧ CookResult.overall_rating (new_result req s) = None
       ∧ CookResult.taste_rating (new_result req s) = None
       ∧ CookResult.texture_rating (new_result req s) = None
       ∧ CookResult.appearance_rating (new_result req s) = None).
Proof.
  intros Hu Hs Hcalls Hne. split.
  - destruct (run_edits_keeps calls s sess db Hu Hs Hcalls) as (Hok & Hlen & Hu' & Hhas).
    destruct Hhas as (pk & r & Hr & Hrs); [by right |].
    repeat split; [done | done |]. by apply (count_results_of_one s _ pk r).
  - intros req Ho Hzero. repeat split; [| apply next_pk_fresh].
    apply (dispatch_new req HTTP_GET s sess db Hs Ho).
    intros pk r Hr Hrs. unfold count in Hzero. apply map_size_empty_iff in Hzero.
    assert (results_of s db !! pk = Some r) as E by by apply lookup_results_of.
    by rewrite Hzero in E.
Qed.

Lemma C3_result_edit_get_or_create_witness :
  count (results_of 1
           (run_edits [(req_alice, HTTP_GET); (req_bob, HTTP_POST bob_edit);
                       (req_bob, HTTP_GET)] 1 db_shared).2) = 1%nat
  ∧ CookResultCreateUpdateView_dispatch req_alice HTTP_GET 1 db_shared
    = (Ok (FormPage (Some (1, alice_result))), db_alice_result).
Proof.
  assert (unique_rows (cook_results db_shared)) as Hu by apply unique_rows_empty.
  assert (cook_sessions db_shared !! 1 = Some shared_session) as Hs by reflexivity.
  assert (Forall (λ c : HttpRequest.t * Method CookResult.t,
                    owned_q (HttpRequest.user c.1) shared_session = true)
            [(req_alice, HTTP_GET); (req_bob, HTTP_POST bob_edit); (req_bob, HTTP_GET)])
    as Hcalls by (repeat constructor).
  destruct (C3_result_edit_get_or_create _ 1 shared_session db_shared Hu Hs Hcalls)
    as [(_ & _ & Hone) Hnew]; [done |].
  split; [exact Hone |].
  destruct (Hnew req_alice) as (Hget & _); [reflexivity | reflexivity |].
  exact Hget.
Defined.

(** C10. The result-edit endpoint applies the ownership condition to the
    parent CookSession only. For a session the requesting user can see (it
    is theirs or nobody's) that has a result, whatever the [created_by] of
    that result: a GET serves the form for that very row and leaves the
    store as it is, and a valid POST writes the submitted fields into that
    row (its [created_by] stays) and redirects to the session. This holds
    also when the result was created by another user, for which the result
    detail view of the same user has no row. *)
Theorem C10_result_edit_filters_session_only
    (req : HttpRequest.t) (s : Z) (sess : CookSession.t) (db : DB)
    (pk : Z) (r : CookResult.t) :
  unique_rows (cook_results db) →
  cook_sessions db !! s = Some sess →
  owned_q (HttpRequest.user req) sess = true →
  cook_results db !! pk = Some r →
  CookResult.cook_session r = s →
  CookResultCreateUpdateView_dispatch req HTTP_GET s db
  = (Ok (FormPage (Some (pk, r))), db)
  ∧ (∀ data,
       is_valid CookResultForm (HttpRequest.user req) db data = true →
       CookResultCreateUpdateView_dispatch req (HTTP_POST data) s db
       = (Ok (HttpResponseRedirect (cooksession_detail s)),
          put_result pk (edited req data r) db)
       ∧ CookResult.created_by (edited req data r) = CookResult.created_by r
       ∧ CookResult.outcome (edited req data r) = CookResult.outcome data
       ∧ CookResult.overall_rating (edited req data r) = CookResult.overall_rating data)
  ∧ (∀ o, CookResult.created_by r = Some o → o ≠ HttpRequest.user req →
       CookResultDetailView_get_queryset req db !! pk = None).
Proof.
  intros Hu Hs Ho Hr Hrs. split; [| split].
  - by rewrite (dispatch_found req HTTP_GET s sess db pk r).
  - intros data Hvalid.
    rewrite (dispatch_found req (HTTP_POST data) s sess db pk r) by done.
    unfold served. rewrite Hvalid, Hrs. done.
  - intros o Hby Hne. apply lookup_qs_filter_None. intros r' Hr'.
    assert (r' = r) as -> by congruence. by apply (owned_q_other o).
Qed.

Lemma C10_result_edit_filters_session_only_witness :
  CookResult.created_by alice_result = Some 1
  ∧ HttpRequest.user req_bob = 2
  ∧ CookResultCreateUpdateView_dispatch req_bob HTTP_GET 1 db_alice_result
    = (Ok (FormPage (Some (1, alice_result))), db_alice_result)
  ∧ CookResultDetailView_get_queryset req_bob db_alice_result !! 1 = None.
Proof.
  assert (unique_rows (cook_results db_alice_result)) as Hu
    by apply unique_rows_singleton.
  destruct (C10_result_edit_filters_session_only req_bob 1 shared_session
              db_alice_result 1 alice_result Hu)
    as (Hget & _ & Hdetail); try reflexivity.
  split; [reflexivity |]. split; [reflexivity |]. split; [exact Hget |].
  apply (Hdetail 1); [reflexivity | simpl; lia].
Defined.

(** ** C4: deleting a dish that has sessions, deleting a recipe in use *)

Lemma Dish_delete_protected (pk : Z) (db : DB) (k : Z) (s : CookSession.t) :
  cook_sessions db !! k = Some s → CookSession.dish s = pk →
  Dish_delete pk db = (Raise ProtectedError, db).
Proof.
  intros Hs Hd. unfold Dish_delete.
  rewrite bool_decide_eq_true_2; [done |].
  apply map_Exists_lookup. by exists k, s.
Qed.

(** C4. Deleting a Dish that at least one CookSession refers to raises
    [ProtectedError] and leaves the whole store, the Dish and its
    CookSessions with it, as it was. Deleting a Recipe succeeds: the recipe
    row is gone, no Dish and no CookSession row is deleted, every Dish whose
    [default_recipe] and every CookSession whose [recipe_used] was that
    recipe has the reference set to null with its other fields as they
    were, and every other row is as it was. *)
Theorem C4_delete_protect_and_set_null (db : DB) (dish_pk recipe_pk : Z) :
  ((∃ k s, cook_sessions db !! k = Some s ∧ CookSession.dish s = dish_pk) →
   Dish_delete dish_pk db = (Raise ProtectedError, db))
  ∧ ∃ db',
      Recipe_delete recipe_pk db = (Ok tt, db')
      ∧ recipes db' = delete recipe_pk (recipes db)
      ∧ dom (dishes db') = dom (dishes db)
      ∧ dom (cook_sessions db') = dom (cook_sessions db)
      ∧ (∀ k d, dishes db !! k = Some d →
           dishes db' !! k
           = Some (if decide (Dish.default_recipe d = Some recipe_pk)
                   then Dish.mk (Dish.created_by d) (Dish.created_at d)
                          (Dish.updated_at d) (Dish.name d) (Dish.description d)
                          None (Dish.is_active d)
                   else d))
      ∧ (∀ k s, cook_sessions db !! k = Some s →
           cook_sessions db' !! k
           = Some (if decide (CookSession.recipe_used s = Some recipe_pk)
                   then CookSession.mk (CookSession.created_by s)
                          (CookSession.created_at s) (CookSession.updated_at s)
                          (CookSession.dish s) None (CookSession.cooked_on s)
                          (CookSession.meal_type s) (CookSession.method s)
                          (CookSession.servings_made s)
                          (CookSession.duration_minutes s)
                          (CookSession.summary s) (CookSession.is_active s)
                   else s))
      ∧ cook_results db' = cook_results db
      ∧ notes db' = notes db
      ∧ tracked_images db' = tracked_images db
      ∧ reference_urls db' = reference_urls db
      ∧ pdf_documents db' = pdf_documents db.
Proof.
  split.
  - intros (k & s & Hs & Hd). by apply (Dish_delete_protected dish_pk db k s).
  - eexists. split; [reflexivity |]. simpl.
    repeat split; try apply dom_fmap_L.
    + intros k d Hd. rewrite lookup_fmap, Hd. simpl. f_equal.
      destruct d as [o ca ua n ds dr ia]. simpl.
      destruct (decide (dr = Some recipe_pk)) as [Heq | Hne].
      * by rewrite bool_decide_eq_true_2.
      * by rewrite bool_decide_eq_false_2.
    + intros k s Hs. rewrite lookup_fmap, Hs. simpl. f_equal.
      destruct s as [o ca ua d ru co mt me sm dm su ia]. simpl.
      destruct (decide (ru = Some recipe_pk)) as [Heq | Hne].
      * by rewrite bool_decide_eq_true_2.
      * by rewrite bool_decide_eq_false_2.
Qed.

Lemma C4_delete_protect_and_set_null_witness :
  Dish_delete 1 db_bacon = (Raise ProtectedError, db_bacon)
  ∧ (Recipe_delete 1 db_bacon).1 = Ok tt
  ∧ dishes (Recipe_delete 1 db_bacon).2 !! 1
    = Some (Dish.mk (Some 1) 0 0 "Oven Bacon" "" None true).
Proof.
  destruct (C4_delete_protect_and_set_null db_bacon 1 1)
    as (Hdish & db' & Hdel & _ & _ & _ & Hd & _).
  split.
  - apply Hdish. exists 1, bacon_session. split; reflexivity.
  - rewrite Hdel. split; [reflexivity |]. simpl.
    rewrite (Hd 1 bacon_dish); reflexivity.
Defined.

(** ** Saves keep the rows unique *)

Section SaveUnique.
Context {A : Type} {HM : Manager A} {HT : TimeStampedModel A} {HC : ModelMeta A}.
Hypothesis objects_with_objects : ∀ (t : gmap Z A) db, objects (with_objects t db) = t.
Hypothesis conflicts_sym : ∀ a b : A, conflicts a b = conflicts b a.

Lemma Model_save_unique (now : Z) (pk : option Z) (obj : A) (db db' : DB) (x : Z * A) :
  unique_rows (objects db) →
  Model_save now pk obj db = (Ok x, db') →
  unique_rows (objects db').
Proof.
  intros Hu. unfold Model_save.
  destruct (violates (objects db) pk (with_updated_at now obj)) eqn:Hv; [done |].
  intros [= _ <-]. rewrite objects_with_objects.
  set (k := default (next_pk (objects db)) pk).
  assert (∀ j, j ≠ k → Some j ≠ pk) as Hother.
  { intros j Hj Heq. apply Hj. unfold k. by rewrite <- Heq. }
  pose proof (proj1 (violates_false _ _ _) Hv) as Hfree.
  intros k1 k2 r1 r2 Hr1 Hr2 Hc.
  destruct (decide (k1 = k)) as [-> | Hn1], (decide (k2 = k)) as [-> | Hn2];
    [done | | |].
  - rewrite lookup_insert_eq in Hr1. rewrite lookup_insert_ne in Hr2 by done.
    injection Hr1 as <-. rewrite conflicts_sym in Hc.
    by rewrite (Hfree k2 r2 Hr2 (Hother k2 Hn2)) in Hc.
  - rewrite lookup_insert_eq in Hr2. rewrite lookup_insert_ne in Hr1 by done.
    injection Hr2 as <-.
    by rewrite (Hfree k1 r1 Hr1 (Hother k1 Hn1)) in Hc.
  - rewrite lookup_insert_ne in Hr1, Hr2 by done. by apply (Hu k1 k2 r1 r2).
Qed.

End SaveUnique.

Lemma Dish_conflicts_true (a b : Dish.t) :
  conflicts a b = true ↔
  ∃ u, Dish.created_by a = Some u ∧ Dish.created_by b = Some u ∧ Dish.name a = Dish.name b.
Proof.
  simpl. destruct (Dish.created_by a) as [u |], (Dish.created_by b) as [v |];
    try (split; [done | by intros (? & ? & ? & ?)]).
  rewrite andb_true_iff, !bool_decide_eq_true. split.
  - intros [-> Hn]. by exists v.
  - intros (w & [= ->] & [= ->] & Hn). done.
Qed.

Lemma Dish_conflicts_sym (a b : Dish.t) : conflicts a b = conflicts b a.
Proof.
  apply eq_true_iff_eq. rewrite !Dish_conflicts_true.
  split; intros (u & ? & ? & ?); by exists u.
Qed.

Lemma CookResult_conflicts_sym (a b : CookResult.t) : conflicts a b = conflicts b a.
Proof. simpl. apply bool_decide_ext. split; congruence. Qed.

Lemma unique_dishes (db : DB) :
  unique_rows (dishes db) ↔ uniq_dish_per_owner_name db.
Proof.
  split.
  - intros Hu k1 k2 d1 d2 u H1 H2 Hb1 Hb2 Hn. apply (Hu k1 k2 d1 d2 H1 H2).
    apply Dish_conflicts_true. by exists u.
  - intros Hu k1 k2 d1 d2 H1 H2 (u & ? & ? & ?)%Dish_conflicts_true.
    by apply (Hu k1 k2 d1 d2 u).
Qed.

(** Every save of a result keeps the results unique per session. *)
Lemma CookResult_save_unique (now : Z) (pk : option Z) (obj : CookResult.t)
    (db db' : DB) (x : Z * CookResult.t) :
  unique_rows (cook_results db) →
  save now pk obj db = (Ok x, db') →
  unique_rows (cook_results db').
Proof.
  intros Hu Hs.
  exact (Model_save_unique (A:=CookResult.t) (λ _ _, eq_refl) CookResult_conflicts_sym
           now pk obj db db' x Hu Hs).
Qed.

(** ** C5: dishes of one owner have different names *)

Lemma Dish_save_rejected (now : Z) (pk : option Z) (d : Dish.t) (db : DB)
    (k : Z) (d0 : Dish.t) (u : Z) :
  dishes db !! k = Some d0 → Some k ≠ pk →
  Dish.created_by d0 = Some u → Dish.created_by d = Some u →
  Dish.name d0 = Dish.name d →
  save now pk d db = (Raise IntegrityError, db).
Proof.
  intros Hk Hne Hb0 Hb Hn. cbn [save Dish_model]. unfold Model_save.
  rewrite (violates_true (objects db) pk (with_updated_at now d) k d0); try done.
  apply Dish_conflicts_true. exists u. by destruct d.
Qed.

Lemma Dish_save_accepted (now : Z) (pk : option Z) (d : Dish.t) (db : DB) :
  (∀ k d0, dishes db !! k = Some d0 → Some k ≠ pk → Dish.name d0 = Dish.name d →
     Dish.created_by d0 ≠ Dish.created_by d
     ∨ Dish.created_by d0 = None ∨ Dish.created_by d = None) →
  save now pk d db
  = (Ok (default (next_pk (dishes db)) pk, with_updated_at now d),
     with_objects (<[default (next_pk (dishes db)) pk := with_updated_at now d]>
                     (dishes db)) db).
Proof.
  intros Hfree. cbn [save Dish_model]. unfold Model_save.
  assert (violates (objects db) pk (with_updated_at now d) = false) as ->; [| done].
  apply violates_false. intros k d0 Hk Hne. apply not_true_iff_false.
  intros (u & Hb0 & Hb & Hn)%Dish_conflicts_true.
  destruct d as [o ca ua n ds dr ia]. simpl in *.
  destruct (Hfree k d0 Hk Hne Hn) as [? | [? | ?]]; congruence.
Qed.

Lemma DishCreateView_post (req : HttpRequest.t) (data : Dish.t) (db : DB) :
  is_valid DishForm (HttpRequest.user req) db data = true →
  DishCreateView req (HTTP_POST data) db
  = match save (HttpRequest.now req) None (created_dish req data) db with
    | (Ok (k, _), db') => (Ok (HttpResponseRedirect (dish_detail k)), db')
    | (Raise e, db') => (Raise e, db')
    end.
Proof.
  intros Hvalid.
  unfold DishCreateView, CreateView, mbind, M_bind, get_db. rewrite Hvalid.
  unfold OwnedQuerysetMixin_form_valid, mbind, M_bind. simpl.
  fold (created_dish req data).
  by destruct (Model_save (HttpRequest.now req) None (created_dish req data) db)
    as [[[k o] | e] db'].
Qed.




(** ** C6: the session buckets of the dashboard *)

Lemma bucket_is_spec (user : Z) (b : CookSession.t → bool) (window : Z → Prop)
    `{∀ d, Decision (window d)} (db : DB) :
  (∀ s, b s = true ↔ window (CookSession.cooked_on s)) →
  qs_filter b (qs_filter (owned_q user) (cook_sessions db)) = spec_bucket user window db.
Proof.
  intros Hb. apply map_eq. intros k. apply option_eq. intros s.
  unfold spec_bucket.
  rewrite !lookup_qs_filter, map_lookup_filter_Some, owned_q_true, Hb. simpl.
  tauto.
Qed.

Lemma CookSessionListView_when (when : string) (req : HttpRequest.t) (db : DB) :
  let today := HttpRequest.today req in
  let qs := qs_filter (owned_q (HttpRequest.user req)) (cook_sessions db) in
  CookSessionListView_get_queryset (with_when when req) db
  = if bool_decide (when = "today")
    then qs_filter (λ s, bool_decide (CookSession.cooked_on s = today)) qs
    else if bool_decide (when = "week")
    then qs_filter (λ s, bool_decide (today < CookSession.cooked_on s)
                         && bool_decide (CookSession.cooked_on s ≤ today + 7)) qs
    else if bool_decide (when = "month")
    then qs_filter (λ s, bool_decide (today < CookSession.cooked_on s)
                         && bool_decide (CookSession.cooked_on s ≤ today + 30)) qs
    else if bool_decide (when = "past30")
    then qs_filter (λ s, bool_decide (today - 30 ≤ CookSession.cooked_on s)
                         && bool_decide (CookSession.cooked_on s ≤ today)) qs
    else qs.
Proof.
  intros today qs. unfold CookSessionListView_get_queryset.
  cbn [HttpRequest.GET HttpRequest.user HttpRequest.today with_when].
  rewrite (lookup_singleton_ne "when" "q") by done.
  rewrite (lookup_singleton_ne "when" "meal_type") by done.
  rewrite (lookup_singleton_ne "when" "method") by done.
  rewrite lookup_singleton_eq.
  change (truthy (strip (default EmptyString None))) with false. cbv iota.
  fold today. fold qs.
  assert (∀ w : string, bool_decide (Some when = Some w) = bool_decide (when = w)) as Hw.
  { intros w. apply bool_decide_ext. split; congruence. }
  by rewrite !Hw.
Qed.

(** C6. The four session buckets of the dashboard count, among the cook
    sessions the requesting user owns or nobody owns, exactly those whose
    [cooked_on] is (1) today; (2) after today and at most today + 7 days;
    (3) after today and at most today + 30 days; (4) from today - 30 days to
    today, both included. Each bucket counts the sessions that the session
    list shows under the bucket's link ([when=today], [week], [month],
    [past30]). *)
Theorem C6_dashboard_buckets (req : HttpRequest.t) (db : DB) :
  let user := HttpRequest.user req in
  let today := HttpRequest.today req in
  map Bucket.count (DashboardView_session_buckets req db)
  = [ size (spec_bucket user (λ d, d = today) db);
      size (spec_bucket user (λ d, today < d ≤ today + 7) db);
      size (spec_bucket user (λ d, today < d ≤ today + 30) db);
      size (spec_bucket user (λ d, today - 30 ≤ d ≤ today) db) ]
  ∧ map Bucket.count (DashboardView_session_buckets req db)
    = [ count (CookSessionListView_get_queryset (with_when "today" req) db);
        count (CookSessionListView_get_queryset (with_when "week" req) db);
        count (CookSessionListView_get_queryset (with_when "month" req) db);
        count (CookSessionListView_get_queryset (with_when "past30" req) db) ]
  ∧ map Bucket.url (DashboardView_session_buckets req db)
    = [ cooksession_list "?when=today"; cooksession_list "?when=week";
        cooksession_list "?when=month"; cooksession_list "?when=past30" ].
Proof.
  intros user today. split; [| split; [| reflexivity]].
  - unfold DashboardView_session_buckets, count. cbn [map Bucket.count].
    fold user. fold today.
    rewrite (bucket_is_spec user _ (λ d, d = today)).
    2: { intros s. by rewrite bool_decide_eq_true. }
    rewrite (bucket_is_spec user _ (λ d, today < d ≤ today + 7)).
    2: { intros s. by rewrite andb_true_iff, !bool_decide_eq_true. }
    rewrite (bucket_is_spec user _ (λ d, today < d ≤ today + 30)).
    2: { intros s. by rewrite andb_true_iff, !bool_decide_eq_true. }
    rewrite (bucket_is_spec user _ (λ d, today - 30 ≤ d ≤ today)).
    2: { intros s. by rewrite andb_true_iff, !bool_decide_eq_true. }
    reflexivity.
  - rewrite !CookSessionListView_when. reflexivity.
Qed.

(** ** C8: the original file name of a PDF document *)

Lemma split_nonempty (sep : ascii) (s : string) : split sep s ≠ [].
Proof.
  destruct s as [| c s]; simpl; [done |].
  case_bool_decide; [done |]. by destruct (split sep s).
Qed.

Lemma join_cons_char (sep c : ascii) (piece : string) (pieces : list string) :
  join sep (String c piece :: pieces) = String c (join sep (piece :: pieces)).
Proof. by destruct pieces. Qed.

(** Joining the pieces of a text gives the text back. *)
Lemma join_split (sep : ascii) (s : string) : join sep (split sep s) = s.
Proof.
  induction s as [| c s IH]; [done |]. simpl. case_bool_decide as Hc.
  - subst c. pose proof (split_nonempty sep s) as Hne.
    destruct (split sep s) as [| piece pieces]; [done |].
    simpl in *. by rewrite IH.
  - destruct (split sep s) as [| piece pieces] eqn:E.
    + by destruct (split_nonempty sep s).
    + rewrite join_cons_char. by rewrite IH.
Qed.

Lemma split_no_sep (sep : ascii) (s : string) :
  Forall (λ piece, has_char sep piece = false) (split sep s).
Proof.
  induction s as [| c s IH]; simpl; [by repeat constructor |].
  case_bool_decide as Hc; [by constructor |].
  pose proof (split_nonempty sep s) as Hne.
  destruct (split sep s) as [| piece pieces]; [done |].
  apply Forall_cons in IH as [Hp Hps]. constructor; [| done].
  simpl. by rewrite bool_decide_eq_false_2.
Qed.

Lemma append_assoc_sep (piece dir seg : string) (sep : ascii) :
  piece +:+ String sep (dir +:+ String sep seg)
  = (piece +:+ String sep dir) +:+ String sep seg.
Proof.
  induction piece as [| c piece IH]; [done |].
  change (String c (piece +:+ String sep (dir +:+ String sep seg))
          = String c ((piece +:+ String sep dir) +:+ String sep seg)).
  by rewrite IH.
Qed.

Lemma join_snoc (sep : ascii) (init : list string) (seg : string) :
  join sep (init ++ [seg]) = seg
  ∨ ∃ dir, join sep (init ++ [seg]) = dir +:+ String sep seg.
Proof.
  induction init as [| piece init IH]; [by left |]. right.
  change ((piece :: init) ++ [seg]) with (piece :: (init ++ [seg])).
  destruct (init ++ [seg]) as [| x l] eqn:E; [by destruct init |].
  change (join sep (piece :: x :: l)) with (piece +:+ String sep (join sep (x :: l))).
  destruct IH as [-> | [dir ->]].
  - by exists piece.
  - exists (piece +:+ String sep dir). apply append_assoc_sep.
Qed.

(** [name.split("/")[-1]] is the final path segment of [name]. *)
Lemma last_split_final_segment (name : string) :
  final_segment name (default EmptyString (last (split "/" name))).
Proof.
  pose proof (split_nonempty "/" name) as Hne.
  pose proof (split_no_sep "/" name) as Hno.
  pose proof (join_split "/" name) as Hjoin.
  destruct (last (split "/" name)) as [seg |] eqn:E.
  - apply last_Some in E as [init E]. rewrite E in Hno, Hjoin. simpl. split.
    + rewrite Forall_app, Forall_singleton in Hno. by destruct Hno as [_ Hseg].
    + rewrite <- Hjoin. destruct (join_snoc "/" init seg) as [-> | [dir ->]];
        [by left | right; by exists dir].
  - apply last_None in E. done.
Qed.

Lemma truthy_true (s : string) : truthy s = true ↔ s ≠ EmptyString.
Proof. unfold truthy. by rewrite negb_true_iff, bool_decide_eq_false. Qed.

Lemma truthy_false (s : string) : truthy s = false ↔ s = EmptyString.
Proof. unfold truthy. by rewrite negb_false_iff, bool_decide_eq_true. Qed.

Lemma PDFDocument_save_ok (now : Z) (pk : option Z) (self : PDFDocument.t) (db : DB) :
  (∀ k r, pdf_documents db !! k = Some r → Some k ≠ pk →
          PDFDocument.uuid r ≠ PDFDocument.uuid self) →
  ∃ saved,
    save now pk self db
    = (Ok (default (next_pk (pdf_documents db)) pk, saved),
       with_objects (<[default (next_pk (pdf_documents db)) pk := saved]>
                       (pdf_documents db)) db)
    ∧ PDFDocument.uuid saved = PDFDocument.uuid self
    ∧ PDFDocument.pdf saved = PDFDocument.pdf self
    ∧ PDFDocument.original_filename saved
      = if truthy (PDFDocument.pdf self)
           && negb (truthy (PDFDocument.original_filename self))
        then default EmptyString (last (split "/" (PDFDocument.pdf self)))
        else PDFDocument.original_filename self.
Proof.
  intros Hfree. cbn [save PDFDocument_model]. unfold PDFDocument_save, Model_save.
  destruct self as [o ca ua u ct oid kd ti ds pdf orig pc so].
  cbn [PDFDocument.pdf PDFDocument.original_filename PDFDocument.uuid] in *.
  set (self' := if truthy pdf && negb (truthy orig) then _ else _).
  assert (PDFDocument.uuid self' = u ∧ PDFDocument.pdf self' = pdf
          ∧ PDFDocument.original_filename self'
            = if truthy pdf && negb (truthy orig)
              then default EmptyString (last (split "/" pdf)) else orig)
    as (Hu & Hp & Ho).
  { unfold self'. by destruct (truthy pdf && negb (truthy orig)). }
  clearbody self'. destruct self' as [o' ca' ua' u' ct' oid' kd' ti' ds' pdf' orig' pc' so'].
  cbn [PDFDocument.pdf PDFDocument.original_filename PDFDocument.uuid] in *. subst u' pdf'.
  eexists. split.
  - match goal with |- context [violates ?t ?p ?x] =>
      assert (violates t p x = false) as ->; [| reflexivity] end.
    apply violates_false. intros k r Hr Hk. simpl. apply bool_decide_eq_false.
    by apply (Hfree k r).
  - by repeat split.
Qed.

(** C8. Saving a PDFDocument whose [uuid] no other row has succeeds, and
    then: when a file is attached and [original_filename] is blank, the
    saved [original_filename] is the final path segment of the file's name;
    when [original_filename] is not blank (or no file is attached) the save
    leaves it as it is. So, once it is not blank, a later save of the row
    leaves it unchanged, whatever the file's name has become. *)
Theorem C8_pdf_original_filename (now : Z) (pk : option Z) (self : PDFDocument.t) (db : DB) :
  (∀ k r, pdf_documents db !! k = Some r → Some k ≠ pk →
          PDFDocument.uuid r ≠ PDFDocument.uuid self) →
  ∃ k saved db',
    save now pk self db = (Ok (k, saved), db')
    ∧ pdf_documents db' !! k = Some saved
    ∧ (PDFDocument.pdf self ≠ EmptyString →
       PDFDocument.original_filename self = EmptyString →
       final_segment (PDFDocument.pdf self) (PDFDocument.original_filename saved))
    ∧ (PDFDocument.original_filename self ≠ EmptyString →
       PDFDocument.original_filename saved = PDFDocument.original_filename self)
    ∧ (PDFDocument.pdf self = EmptyString →
       PDFDocument.original_filename saved = PDFDocument.original_filename self)
    ∧ (∀ now' self',
         PDFDocument.uuid self' = PDFDocument.uuid self →
         PDFDocument.original_filename self' = PDFDocument.original_filename saved →
         PDFDocument.original_filename saved ≠ EmptyString →
         ∃ saved' db'',
           save now' (Some k) self' db' = (Ok (k, saved'), db'')
           ∧ pdf_documents db'' !! k = Some saved'
           ∧ PDFDocument.original_filename saved'
             = PDFDocument.original_filename saved).
Proof.
  intros Hfree.
  destruct (PDFDocument_save_ok now pk self db Hfree) as (saved & Hs & Hu & Hp & Ho).
  set (k := default (next_pk (pdf_documents db)) pk) in *.
  exists k, saved. eexists. split; [exact Hs |].
  split; [simpl; apply lookup_insert_eq |].
  split; [| split; [| split]].
  - intros Hpdf Horig. rewrite Ho.
    rewrite (proj2 (truthy_true _) Hpdf), (proj2 (truthy_false _) Horig). simpl.
    apply last_split_final_segment.
  - intros Horig. rewrite Ho. rewrite (proj2 (truthy_true _) Horig).
    by rewrite andb_false_r.
  - intros Hpdf. rewrite Ho. by rewrite (proj2 (truthy_false _) Hpdf).
  - intros now' self' Hu' Ho' Hne.
    destruct (PDFDocument_save_ok now' (Some k) self'
                (with_objects (<[k := saved]> (pdf_documents db)) db))
      as (saved' & Hs' & _ & _ & Ho'').
    { intros j r Hr Hj. simpl in Hr.
      assert (j ≠ k) as Hjk by congruence.
      rewrite lookup_insert_ne in Hr by done. rewrite Hu'.
      apply (Hfree j r Hr). intros Heq. apply Hjk. unfold k. by rewrite <- Heq. }
    simpl in Hs'. exists saved'. eexists. split; [exact Hs' |].
    split; [simpl; apply lookup_insert_eq |].
    rewrite Ho'', Ho'. rewrite (proj2 (truthy_true _) Hne). by rewrite andb_false_r.
Qed.

Lemma C8_pdf_original_filename_witness :
  (∃ k saved db',
     save 9 None card_pdf db_shared = (Ok (k, saved), db')
     ∧ final_segment "recipes/scans/card.pdf" (PDFDocument.original_filename saved))
  ∧ PDFDocument.original_filename <$> pdf_documents (save 9 None card_pdf db_shared).2 !! 1
    = Some "card.pdf".
Proof.
  split; [| reflexivity].
  destruct (C8_pdf_original_filename 9 None card_pdf db_shared)
    as (k & saved & db' & Hs & _ & Hseg & _).
  - intros k r Hr. simpl in Hr. by rewrite lookup_empty in Hr.
  - exists k, saved, db'. split; [exact Hs |]. by apply Hseg.
Defined.

(** ** C7: what a successful attachment persists *)

Ltac run_target_view :=
  unfold TargetNoteCreateView, TargetReferenceURLCreateView,
    TargetTrackedImageCreateView, TargetPDFDocumentCreateView,
    TargetCreateView, _get_target_or_404, mbind, M_bind, get_db, raise, mret, M_ret.

Lemma Note_attach_redirect (req : HttpRequest.t) (method : Method Note.t)
    (model_key : string) (pk : Z) (db db' : DB) (url : Url) :
  TargetNoteCreateView req method model_key pk db = (Ok (HttpResponseRedirect url), db') →
  ∃ model, ALLOWED_TARGET_MODELS !! model_key = Some model
           ∧ url = target_detail model_key pk
           ∧ attached (A:=Note.t) req model pk db db' (next_pk (notes db)).
Proof.
  run_target_view.
  destruct (ALLOWED_TARGET_MODELS !! model_key) as [model |]; [| done].
  destruct (owned_exists model (HttpRequest.user req) pk db); [| done].
  destruct method as [| data]; [done |].
  destruct (is_valid NoteForTargetForm (HttpRequest.user req) db data); [| done].
  unfold Target_form_valid, mbind, M_bind. cbn. unfold Model_save.
  match goal with |- context [violates ?t ?p ?x] => destruct (violates t p x) end;
    [done |].
  intros [= <- <-]. exists model. repeat split; simpl.
  - apply next_pk_fresh.
  - eexists. rewrite lookup_insert_eq. by repeat split.
  - intros j Hj. by rewrite lookup_insert_ne.
Qed.

Ltac attach_redirect form :=
  run_target_view;
  match goal with |- context [ALLOWED_TARGET_MODELS !! ?key] =>
    destruct (ALLOWED_TARGET_MODELS !! key) as [model |]; [| done] end;
  match goal with |- context [owned_exists ?m ?u ?pk ?db] =>
    destruct (owned_exists m u pk db); [| done] end;
  match goal with method : Method _ |- _ => destruct method as [| data]; [done |] end;
  match goal with |- context [is_valid form ?u ?db ?data] =>
    destruct (is_valid form u db data); [| done] end;
  unfold Target_form_valid, mbind, M_bind; cbn; unfold PDFDocument_save, Model_save;
  repeat match goal with |- context [if truthy ?a && ?b then _ else _] =>
    destruct (truthy a && b) end;
  (match goal with |- context [violates ?t ?p ?x] => destruct (violates t p x) end;
   [done |]);
  (intros [= <- <-]; eexists; repeat split; simpl;
   [ apply next_pk_fresh
   | eexists; rewrite lookup_insert_eq; by repeat split
   | intros j Hj; by rewrite lookup_insert_ne ]).

Lemma ReferenceURL_attach_redirect (req : HttpRequest.t) (method : Method ReferenceURL.t)
    (model_key : string) (pk : Z) (db db' : DB) (url : Url) :
  TargetReferenceURLCreateView req method model_key pk db
  = (Ok (HttpResponseRedirect url), db') →
  ∃ model, ALLOWED_TARGET_MODELS !! model_key = Some model
           ∧ url = target_detail model_key pk
           ∧ attached (A:=ReferenceURL.t) req model pk db db' (next_pk (reference_urls db)).
Proof. attach_redirect ReferenceURLForTargetForm. Qed.

Lemma TrackedImage_attach_redirect (req : HttpRequest.t) (method : Method TrackedImage.t)
    (model_key : string) (pk : Z) (db db' : DB) (url : Url) :
  TargetTrackedImageCreateView req method model_key pk db
  = (Ok (HttpResponseRedirect url), db') →
  ∃ model, ALLOWED_TARGET_MODELS !! model_key = Some model
           ∧ url = target_detail model_key pk
           ∧ attached (A:=TrackedImage.t) req model pk db db' (next_pk (tracked_images db)).
Proof. attach_redirect TrackedImageForTargetForm. Qed.

Lemma PDFDocument_attach_redirect (req : HttpRequest.t) (method : Method PDFDocument.t)
    (model_key : string) (pk : Z) (db db' : DB) (url : Url) :
  TargetPDFDocumentCreateView req method model_key pk db
  = (Ok (HttpResponseRedirect url), db') →
  ∃ model, ALLOWED_TARGET_MODELS !! model_key = Some model
           ∧ url = target_detail model_key pk
           ∧ attached (A:=PDFDocument.t) req model pk db db' (next_pk (pdf_documents db)).
Proof. attach_redirect PDFDocumentForTargetForm. Qed.

Ltac attach_ok Hkey Hfound Hvalid :=
  run_target_view; rewrite Hkey, Hfound, Hvalid;
  unfold Target_form_valid, mbind, M_bind; cbn; unfold PDFDocument_save, Model_save;
  repeat match goal with |- context [if truthy ?a && ?b then _ else _] =>
    destruct (truthy a && b) end;
  (match goal with |- context [violates ?t ?p ?x] =>
     assert (violates t p x = false) as ->; [apply violates_false | by eexists] end).

Lemma Note_attach_ok (req : HttpRequest.t) (data : Note.t)
    (model_key : string) (model : ModelClass) (pk : Z) (db : DB) :
  ALLOWED_TARGET_MODELS !! model_key = Some model →
  owned_exists model (HttpRequest.user req) pk db = true →
  is_valid NoteForTargetForm (HttpRequest.user req) db data = true →
  ∃ db', TargetNoteCreateView req (HTTP_POST data) model_key pk db
         = (Ok (HttpResponseRedirect (target_detail model_key pk)), db').
Proof. intros Hkey Hfound Hvalid. attach_ok Hkey Hfound Hvalid. done. Qed.

Lemma ReferenceURL_attach_ok (req : HttpRequest.t) (data : ReferenceURL.t)
    (model_key : string) (model : ModelClass) (pk : Z) (db : DB) :
  ALLOWED_TARGET_MODELS !! model_key = Some model →
  owned_exists model (HttpRequest.user req) pk db = true →
  is_valid ReferenceURLForTargetForm (HttpRequest.user req) db data = true →
  ∃ db', TargetReferenceURLCreateView req (HTTP_POST data) model_key pk db
         = (Ok (HttpResponseRedirect (target_detail model_key pk)), db').
Proof. intros Hkey Hfound Hvalid. attach_ok Hkey Hfound Hvalid. done. Qed.

Lemma TrackedImage_attach_ok (req : HttpRequest.t) (data : TrackedImage.t)
    (model_key : string) (model : ModelClass) (pk : Z) (db : DB) :
  ALLOWED_TARGET_MODELS !! model_key = Some model →
  owned_exists model (HttpRequest.user req) pk db = true →
  is_valid TrackedImageForTargetForm (HttpRequest.user req) db data = true →
  (∀ k r, tracked_images db !! k = Some r → TrackedImage.uuid r ≠ HttpRequest.uuid4 req) →
  ∃ db', TargetTrackedImageCreateView req (HTTP_POST data) model_key pk db
         = (Ok (HttpResponseRedirect (target_detail model_key pk)), db').
Proof.
  intros Hkey Hfound Hvalid Hfree. attach_ok Hkey Hfound Hvalid.
  intros k r Hr _. simpl. apply bool_decide_eq_false. by apply (Hfree k r).
Qed.

Lemma PDFDocument_attach_ok (req : HttpRequest.t) (data : PDFDocument.t)
    (model_key : string) (model : ModelClass) (pk : Z) (db : DB) :
  ALLOWED_TARGET_MODELS !! model_key = Some model →
  owned_exists model (HttpRequest.user req) pk db = true →
  is_valid PDFDocumentForTargetForm (HttpRequest.user req) db data = true →
  (∀ k r, pdf_documents db !! k = Some r → PDFDocument.uuid r ≠ HttpRequest.uuid4 req) →
  ∃ db', TargetPDFDocumentCreateView req (HTTP_POST data) model_key pk db
         = (Ok (HttpResponseRedirect (target_detail model_key pk)), db').
Proof.
  intros Hkey Hfound Hvalid Hfree. attach_ok Hkey Hfound Hvalid;
    intros k r Hr _; simpl; apply bool_decide_eq_false; by apply (Hfree k r).
Qed.

(** C7. For a target that the view resolves (its key is allowed and its row
    is the user's or nobody's), a valid submission to each of the four
    "create for target" views is saved and answered by the redirect to the
    target page (for images and PDFs when the drawn uuid is not taken), and
    every request the views answer by a redirect has persisted one new
    attachment whose [content_type] is the class of the target, whose
    [object_id] is the decimal text of the target's key, and whose
    [created_by] is the requesting user; the other attachments are as they
    were. *)
Theorem C7_attachment_bound_to_target
    (req : HttpRequest.t) (model_key : string) (model : ModelClass) (pk : Z) (db : DB) :
  ALLOWED_TARGET_MODELS !! model_key = Some model →
  owned_exists model (HttpRequest.user req) pk db = true →
  ((∀ data, is_valid NoteForTargetForm (HttpRequest.user req) db data = true →
      ∃ db', TargetNoteCreateView req (HTTP_POST data) model_key pk db
             = (Ok (HttpResponseRedirect (target_detail model_key pk)), db'))
   ∧ (∀ data, is_valid ReferenceURLForTargetForm (HttpRequest.user req) db data = true →
        ∃ db', TargetReferenceURLCreateView req (HTTP_POST data) model_key pk db
               = (Ok (HttpResponseRedirect (target_detail model_key pk)), db'))
   ∧ (∀ data, is_valid TrackedImageForTargetForm (HttpRequest.user req) db data = true →
        (∀ k r, tracked_images db !! k = Some r →
                TrackedImage.uuid r ≠ HttpRequest.uuid4 req) →
        ∃ db', TargetTrackedImageCreateView req (HTTP_POST data) model_key pk db
               = (Ok (HttpResponseRedirect (target_detail model_key pk)), db'))
   ∧ (∀ data, is_valid PDFDocumentForTargetForm (HttpRequest.user req) db data = true →
        (∀ k r, pdf_documents db !! k = Some r →
                PDFDocument.uuid r ≠ HttpRequest.uuid4 req) →
        ∃ db', TargetPDFDocumentCreateView req (HTTP_POST data) model_key pk db
               = (Ok (HttpResponseRedirect (target_detail model_key pk)), db')))
  ∧ ((∀ method url db',
        TargetNoteCreateView req method model_key pk db
        = (Ok (HttpResponseRedirect url), db') →
        attached (A:=Note.t) req model pk db db' (next_pk (notes db)))
     ∧ (∀ method url db',
          TargetReferenceURLCreateView req method model_key pk db
          = (Ok (HttpResponseRedirect url), db') →
          attached (A:=ReferenceURL.t) req model pk db db' (next_pk (reference_urls db)))
     ∧ (∀ method url db',
          TargetTrackedImageCreateView req method model_key pk db
          = (Ok (HttpResponseRedirect url), db') →
          attached (A:=TrackedImage.t) req model pk db db' (next_pk (tracked_images db)))
     ∧ (∀ method url db',
          TargetPDFDocumentCreateView req method model_key pk db
          = (Ok (HttpResponseRedirect url), db') →
          attached (A:=PDFDocument.t) req model pk db db' (next_pk (pdf_documents db)))).
Proof.
  intros Hkey Hfound. split; [split; [| split; [| split]] | split; [| split; [| split]]].
  - intros data Hvalid. by apply (Note_attach_ok req data model_key model).
  - intros data Hvalid. by apply (ReferenceURL_attach_ok req data model_key model).
  - intros data Hvalid Hfree. by apply (TrackedImage_attach_ok req data model_key model).
  - intros data Hvalid Hfree. by apply (PDFDocument_attach_ok req data model_key model).
  - intros method url db' (m & Hm & _ & Ha)%Note_attach_redirect. congruence.
  - intros method url db' (m & Hm & _ & Ha)%ReferenceURL_attach_redirect. congruence.
  - intros method url db' (m & Hm & _ & Ha)%TrackedImage_attach_redirect. congruence.
  - intros method url db' (m & Hm & _ & Ha)%PDFDocument_attach_redirect. congruence.
Qed.

Lemma C7_attachment_bound_to_target_witness :
  ∃ db',
    TargetNoteCreateView req_alice (HTTP_POST hello_note) "dish" 1 db_shared
    = (Ok (HttpResponseRedirect (target_detail "dish" 1)), db')
    ∧ attached (A:=Note.t) req_alice cls_Dish 1 db_shared db' 1
    ∧ notes db' !! 1 = Some (Note.mk (Some 1) 100 100 cls_Dish "1" "Note" "Hello" false).
Proof.
  destruct (C7_attachment_bound_to_target req_alice "dish" cls_Dish 1 db_shared)
    as ((Hok & _) & (Hatt & _)); [reflexivity | reflexivity |].
  destruct (Hok hello_note) as [db' Hview]; [reflexivity |].
  exists db'. split; [exact Hview |]. split.
  - exact (Hatt _ _ _ Hview).
  - vm_compute in Hview. injection Hview as <-. reflexivity.
Defined.

(** ** C9: an edit of an unowned row makes the editor its owner *)

Lemma mixin_queryset_unowned {A} `{Manager A, OwnedModel A}
    (req : HttpRequest.t) (db : DB) (pk : Z) (r : A) :
  objects db !! pk = Some r → created_by r = None →
  OwnedQuerysetMixin_get_queryset req db !! pk = Some r.
Proof.
  intros Hr Hn. apply lookup_qs_filter. split; [done |]. apply owned_q_true. by right.
Qed.

Ltac run_update_view Hq Hvalid :=
  unfold RecipeUpdateView, DishUpdateView, CookSessionUpdateView, UpdateView,
    mbind, M_bind, get_db, get_object_or_404, mret, M_ret;
  rewrite Hq, Hvalid;
  unfold OwnedQuerysetMixin_form_valid, mbind, M_bind, mret, M_ret.

Lemma Recipe_update_unowned (req : HttpRequest.t) (data r : Recipe.t) (pk : Z) (db : DB) :
  recipes db !! pk = Some r → Recipe.created_by r = None →
  is_valid RecipeForm (HttpRequest.user req) db data = true →
  ∃ r',
    RecipeUpdateView req (HTTP_POST data) pk db
    = (Ok (HttpResponseRedirect (recipe_detail pk)),
       with_objects (<[pk := r']> (recipes db)) db)
    ∧ Recipe.created_by r' = Some (HttpRequest.user req)
    ∧ Recipe.title r' = Recipe.title data.
Proof.
  intros Hr Hn Hvalid.
  pose proof (mixin_queryset_unowned req db pk r Hr Hn) as Hq.
  run_update_view Hq Hvalid. cbn. rewrite Hn. cbn. unfold Model_save.
  match goal with |- context [violates ?t ?p ?x] =>
    assert (violates t p x = false) as -> by by apply violates_false end.
  eexists. split; [reflexivity |]. by split.
Qed.

Lemma CookSession_update_unowned (req : HttpRequest.t) (data r : CookSession.t)
    (pk : Z) (db : DB) :
  cook_sessions db !! pk = Some r → CookSession.created_by r = None →
  is_valid CookSessionForm (HttpRequest.user req) db data = true →
  ∃ r',
    CookSessionUpdateView req (HTTP_POST data) pk db
    = (Ok (HttpResponseRedirect (cooksession_detail pk)),
       with_objects (<[pk := r']> (cook_sessions db)) db)
    ∧ CookSession.created_by r' = Some (HttpRequest.user req)
    ∧ CookSession.cooked_on r' = CookSession.cooked_on data.
Proof.
  intros Hr Hn Hvalid.
  pose proof (mixin_queryset_unowned req db pk r Hr Hn) as Hq.
  run_update_view Hq Hvalid. cbn. rewrite Hn. cbn. unfold Model_save.
  match goal with |- context [violates ?t ?p ?x] =>
    assert (violates t p x = false) as -> by by apply violates_false end.
  eexists. split; [reflexivity |]. by split.
Qed.

Lemma Dish_update_unowned (req : HttpRequest.t) (data r : Dish.t) (pk : Z) (db : DB) :
  dishes db !! pk = Some r → Dish.created_by r = None →
  is_valid DishForm (HttpRequest.user req) db data = true →
  (∀ k d0, dishes db !! k = Some d0 → k ≠ pk → Dish.name d0 = Dish.name data →
           Dish.created_by d0 ≠ Some (HttpRequest.user req)) →
  ∃ r',
    DishUpdateView req (HTTP_POST data) pk db
    = (Ok (HttpResponseRedirect (dish_detail pk)),
       with_objects (<[pk := r']> (dishes db)) db)
    ∧ Dish.created_by r' = Some (HttpRequest.user req)
    ∧ Dish.name r' = Dish.name data.
Proof.
  intros Hr Hn Hvalid Hfree.
  pose proof (mixin_queryset_unowned req db pk r Hr Hn) as Hq.
  run_update_view Hq Hvalid. cbn. rewrite Hn. cbn. unfold Model_save.
  match goal with |- context [violates ?t ?p ?x] =>
    assert (violates t p x = false) as -> end.
  { apply violates_false. intros k d0 Hk Hne. apply not_true_iff_false.
    intros (u & Hb0 & Hb & Hname)%Dish_conflicts_true. simpl in Hb, Hname.
    apply (Hfree k d0 Hk); congruence. }
  eexists. split; [reflexivity |]. by split.
Qed.

(** C9. A valid POST to the edit view of a Recipe, Dish or CookSession whose
    [created_by] is null (an update, not a create) saves the row with
    [created_by] set to the requesting user (for a Dish, when the user has no
    other dish of the submitted name, so that the save is accepted). Before
    the edit every other user had the row in the queryset of the owned
    views; after it no other user has. *)
Theorem C9_edit_takes_ownership (req : HttpRequest.t) (pk : Z) (db : DB) :
  (∀ r data,
     recipes db !! pk = Some r → Recipe.created_by r = None →
     is_valid RecipeForm (HttpRequest.user req) db data = true →
     ∃ db' r',
       RecipeUpdateView req (HTTP_POST data) pk db
       = (Ok (HttpResponseRedirect (recipe_detail pk)), db')
       ∧ recipes db' !! pk = Some r'
       ∧ Recipe.created_by r' = Some (HttpRequest.user req)
       ∧ ∀ other, HttpRequest.user other ≠ HttpRequest.user req →
           OwnedQuerysetMixin_get_queryset other db !! pk = Some r
           ∧ OwnedQuerysetMixin_get_queryset (A:=Recipe.t) other db' !! pk = None)
  ∧ (∀ r data,
       dishes db !! pk = Some r → Dish.created_by r = None →
       is_valid DishForm (HttpRequest.user req) db data = true →
       (∀ k d0, dishes db !! k = Some d0 → k ≠ pk → Dish.name d0 = Dish.name data →
                Dish.created_by d0 ≠ Some (HttpRequest.user req)) →
       ∃ db' r',
         DishUpdateView req (HTTP_POST data) pk db
         = (Ok (HttpResponseRedirect (dish_detail pk)), db')
         ∧ dishes db' !! pk = Some r'
         ∧ Dish.created_by r' = Some (HttpRequest.user req)
         ∧ ∀ other, HttpRequest.user other ≠ HttpRequest.user req →
             OwnedQuerysetMixin_get_queryset other db !! pk = Some r
             ∧ OwnedQuerysetMixin_get_queryset (A:=Dish.t) other db' !! pk = None)
  ∧ (∀ r data,
       cook_sessions db !! pk = Some r → CookSession.created_by r = None →
       is_valid CookSessionForm (HttpRequest.user req) db data = true →
       ∃ db' r',
         CookSessionUpdateView req (HTTP_POST data) pk db
         = (Ok (HttpResponseRedirect (cooksession_detail pk)), db')
         ∧ cook_sessions db' !! pk = Some r'
         ∧ CookSession.created_by r' = Some (HttpRequest.user req)
         ∧ ∀ other, HttpRequest.user other ≠ HttpRequest.user req →
             OwnedQuerysetMixin_get_queryset other db !! pk = Some r
             ∧ OwnedQuerysetMixin_get_queryset (A:=CookSession.t) other db' !! pk = None).
Proof.
  split; [| split].
  - intros r data Hr Hn Hvalid.
    destruct (Recipe_update_unowned req data r pk db Hr Hn Hvalid) as (r' & Hv & Hby & _).
    eexists. exists r'. split; [exact Hv |].
    assert (recipes (with_objects (<[pk := r']> (recipes db)) db) !! pk = Some r')
      as Hr' by (simpl; apply lookup_insert_eq).
    repeat split; try done.
    + by apply mixin_queryset_unowned.
    + by apply (mixin_queryset_other (HttpRequest.user req) other _ pk r').
  - intros r data Hr Hn Hvalid Hfree.
    destruct (Dish_update_unowned req data r pk db Hr Hn Hvalid Hfree) as (r' & Hv & Hby & _).
    eexists. exists r'. split; [exact Hv |].
    assert (dishes (with_objects (<[pk := r']> (dishes db)) db) !! pk = Some r')
      as Hr' by (simpl; apply lookup_insert_eq).
    repeat split; try done.
    + by apply mixin_queryset_unowned.
    + by apply (mixin_queryset_other (HttpRequest.user req) other _ pk r').
  - intros r data Hr Hn Hvalid.
    destruct (CookSession_update_unowned req data r pk db Hr Hn Hvalid)
      as (r' & Hv & Hby & _).
    eexists. exists r'. split; [exact Hv |].
    assert (cook_sessions (with_objects (<[pk := r']> (cook_sessions db)) db) !! pk
            = Some r') as Hr' by (simpl; apply lookup_insert_eq).
    repeat split; try done.
    + by apply mixin_queryset_unowned.
    + by apply (mixin_queryset_other (HttpRequest.user req) other _ pk r').
Qed.

Lemma C9_edit_takes_ownership_witness :
  ∃ db' r',
    CookSessionUpdateView req_bob (HTTP_POST shared_session) 1 db_shared
    = (Ok (HttpResponseRedirect (cooksession_detail 1)), db')
    ∧ cook_sessions db' !! 1 = Some r'
    ∧ CookSession.created_by r' = Some 2
    ∧ OwnedQuerysetMixin_get_queryset req_alice db_shared !! 1 = Some shared_session
    ∧ OwnedQuerysetMixin_get_queryset (A:=CookSession.t) req_alice db' !! 1 = None.
Proof.
  destruct (C9_edit_takes_ownership req_bob 1 db_shared) as (_ & _ & Hsession).
  destruct (Hsession shared_session shared_session) as (db' & r' & Hv & Hr' & Hby & Hother);
    [reflexivity | reflexivity | reflexivity |].
  exists db', r'. split; [exact Hv |]. split; [exact Hr' |]. split; [exact Hby |].
  apply (Hother req_alice). simpl. lia.
Defined.

(** ** Creating a recipe, then listing *)

Lemma RecipeListView_no_params (req : HttpRequest.t) (db : DB) :
  HttpRequest.GET req = ∅ →
  RecipeListView_get_queryset req db
  = qs_filter (owned_q (HttpRequest.user req)) (recipes db).
Proof.
  intros Hget. unfold RecipeListView_get_queryset. rewrite Hget, !lookup_empty.
  reflexivity.
Qed.

Lemma RecipeCreateView_post_valid (req : HttpRequest.t) (data : Recipe.t) (db : DB) :
  is_valid RecipeForm (HttpRequest.user req) db data = true →
  ∃ r,
    RecipeCreateView req (HTTP_POST data) db
    = (Ok (HttpResponseRedirect (recipe_detail (next_pk (recipes db)))),
       with_objects (<[next_pk (recipes db) := r]> (recipes db)) db)
    ∧ Recipe.created_by r = Some (HttpRequest.user req)
    ∧ Recipe.title r = Recipe.title data
    ∧ Recipe.created_at r = HttpRequest.now req.
Proof.
  intros Hvalid.
  unfold RecipeCreateView, CreateView, mbind, M_bind, get_db. rewrite Hvalid.
  unfold OwnedQuerysetMixin_form_valid, mbind, M_bind, mret, M_ret. cbn.
  unfold Model_save.
  match goal with |- context [violates ?t ?p ?x] =>
    assert (violates t p x = false) as -> by by apply violates_false end.
  eexists. split; [reflexivity |]. by repeat split.
Qed.



(** ** A rejected submission to the result-edit endpoint *)

Lemma rating_out_of_range (n : N) : (n < 1 ∨ 10 < n)%N → rating_ok (Some n) = false.
Proof.
  intros Hn. simpl. apply andb_false_iff.
  destruct Hn; [left | right]; by apply N.leb_gt.
Qed.

(** X2. A POST to the result-edit endpoint with a rating outside 1..10 is
    not valid and is answered by the form page. The result of the session,
    when there is one, is served as it is and the store is unchanged; but
    when the session has no result yet, the row of the defaults is created
    all the same, because the row is got or created before the submission
    is validated. *)
Theorem X2_result_edit_rejected_submission
    (req : HttpRequest.t) (data : CookResult.t) (n : N)
    (s : Z) (sess : CookSession.t) (db : DB) :
  unique_rows (cook_results db) →
  cook_sessions db !! s = Some sess →
  owned_q (HttpRequest.user req) sess = true →
  CookResult.overall_rating data = Some n → (n < 1 ∨ 10 < n)%N →
  (∀ db0, is_valid CookResultForm (HttpRequest.user req) db0 data = false)
  ∧ (∀ pk r,
       cook_results db !! pk = Some r → CookResult.cook_session r = s →
       CookResultCreateUpdateView_dispatch req (HTTP_POST data) s db
       = (Ok (FormPage (Some (pk, r))), db))
  ∧ ((∀ pk r, cook_results db !! pk = Some r → CookResult.cook_session r ≠ s) →
     CookResultCreateUpdateView_dispatch req (HTTP_POST data) s db
     = (Ok (FormPage (Some (next_pk (cook_results db), new_result req s))),
        put_result (next_pk (cook_results db)) (new_result req s) db)
     ∧ cook_results db !! next_pk (cook_results db) = None).
Proof.
  intros Hu Hs Ho Hrating Hn.
  assert (∀ db0, is_valid CookResultForm (HttpRequest.user req) db0 data = false)
    as Hinvalid.
  { intros db0. simpl. rewrite Hrating, rating_out_of_range by done. done. }
  split; [done |]. split.
  - intros pk r Hr Hrs.
    rewrite (dispatch_found req (HTTP_POST data) s sess db pk r) by done.
    unfold served. by rewrite Hinvalid.
  - intros Hnone. split; [| apply next_pk_fresh].
    rewrite (dispatch_new req (HTTP_POST data) s sess db) by done.
    unfold served. by rewrite Hinvalid.
Qed.

Lemma X2_result_edit_rejected_submission_witness :
  CookResultCreateUpdateView_dispatch req_bob
    (HTTP_POST (CookResult.mk None 0 0 0 GOOD (Some 11%N) None None None true "" "" ""))
    1 db_shared
  = (Ok (FormPage (Some (1, new_result req_bob 1))),
     put_result 1 (new_result req_bob 1) db_shared).
Proof.
  destruct (X2_result_edit_rejected_submission req_bob
              (CookResult.mk None 0 0 0 GOOD (Some 11%N) None None None true "" "" "")
              11 1 shared_session db_shared) as (_ & _ & Hnew);
    [apply unique_rows_empty | reflexivity | reflexivity | reflexivity | right; lia |].
  destruct Hnew as [Hv _]; [| exact Hv].
  intros pk r Hr. simpl in Hr. by rewrite lookup_empty in Hr.
Defined.

(** ** The choices of the session form *)

Lemma CookSessionCreateView_post (req : HttpRequest.t) (data : CookSession.t) (db : DB) :
  CookSessionCreateView req (HTTP_POST data) db
  = if is_valid CookSessionForm (HttpRequest.user req) db data
    then (Ok (HttpResponseRedirect (cooksession_detail (next_pk (cook_sessions db)))),
          with_objects (<[next_pk (cook_sessions db) := created_session req data]>
                          (cook_sessions db)) db)
    else (Ok (FormPage None), db).
Proof.
  unfold CookSessionCreateView, CreateView, mbind, M_bind, get_db.
  destruct (is_valid CookSessionForm (HttpRequest.user req) db data); [| done].
  unfold OwnedQuerysetMixin_form_valid, mbind, M_bind, mret, M_ret. cbn.
  unfold Model_save. fold (created_session req data).
  match goal with |- context [violates ?t ?p ?x] =>
    assert (violates t p x = false) as -> by by apply violates_false end.
  done.
Qed.

Lemma CookSessionForm_valid (user : Z) (db : DB) (data : CookSession.t) :
  is_valid CookSessionForm user db data = true →
  (∃ d, dishes db !! CookSession.dish data = Some d ∧ owned_q user d = true)
  ∧ (∀ r, CookSession.recipe_used data = Some r →
          ∃ recipe, recipes db !! r = Some recipe ∧ owned_q user recipe = true).
Proof.
  simpl. rewrite !andb_true_iff. intros [[[Hdish Hrecipe] _] _]. split.
  - apply in_queryset_true in Hdish as [d Hd].
    apply lookup_qs_filter in Hd. by exists d.
  - intros r Hr. rewrite Hr in Hrecipe.
    apply in_queryset_true in Hrecipe as [recipe Hrec].
    apply lookup_qs_filter in Hrec. by exists recipe.
Qed.



(** ** Querysets as parts of querysets *)

Lemma qs_filter_subseteq {A} (q : A → bool) (qs : gmap Z A) : qs_filter q qs ⊆ qs.
Proof. apply map_filter_subseteq. Qed.

Lemma qs_filter_mono {A} (q : A → bool) (qs1 qs2 : gmap Z A) :
  qs1 ⊆ qs2 → qs_filter q qs1 ⊆ qs_filter q qs2.
Proof. apply map_filter_subseteq_mono. Qed.

Lemma qs_filter_impl {A} (p q : A → bool) (qs : gmap Z A) :
  (∀ r, p r = true → q r = true) → qs_filter p qs ⊆ qs_filter q qs.
Proof.
  intros Hpq. apply map_subseteq_spec. intros k r [Hr Hp]%lookup_qs_filter.
  apply lookup_qs_filter. auto.
Qed.

Lemma count_mono {A} (qs1 qs2 : gmap Z A) : qs1 ⊆ qs2 → (count qs1 ≤ count qs2)%nat.
Proof. apply map_subseteq_size. Qed.

Lemma count_zero {A} (qs : gmap Z A) : count qs = 0%nat ↔ ∀ k r, qs !! k = Some r → False.
Proof.
  unfold count. rewrite map_size_empty_iff. split.
  - intros -> k r Hr. by rewrite lookup_empty in Hr.
  - intros Hnone. apply map_eq. intros k. rewrite lookup_empty.
    destruct (qs !! k) as [r |] eqn:E; [| done]. by destruct (Hnone k r).
Qed.

Lemma counts_lookup (req : HttpRequest.t) (db : DB) :
  let user := HttpRequest.user req in
  DashboardView_counts req db !! "recipes"
    = Some (count (qs_filter (owned_q user) (recipes db)))
  ∧ DashboardView_counts req db !! "dishes"
    = Some (count (qs_filter (owned_q user) (dishes db)))
  ∧ DashboardView_counts req db !! "sessions"
    = Some (count (qs_filter (owned_q user) (cook_sessions db)))
  ∧ DashboardView_counts req db !! "results"
    = Some (count (qs_filter (owned_q user) (cook_results db)))
  ∧ DashboardView_counts req db !! "images"
    = Some (count (qs_filter (owned_q user) (tracked_images db)))
  ∧ DashboardView_counts req db !! "notes"
    = Some (count (qs_filter (owned_q user) (notes db)))
  ∧ DashboardView_counts req db !! "urls"
    = Some (count (qs_filter (owned_q user) (reference_urls db)))
  ∧ DashboardView_counts req db !! "pdfs"
    = Some (count (qs_filter (owned_q user) (pdf_documents db))).
Proof.
  intros user. unfold DashboardView_counts. fold user.
  repeat split;
    repeat (rewrite lookup_insert_ne by done);
    first [apply lookup_insert_eq | apply lookup_singleton_eq].
Qed.

(** ** Deleting a session *)

Lemma owned_exists_missing_session (user pk : Z) (db : DB) :
  cook_sessions db !! pk = None → owned_exists cls_CookSession user pk db = false.
Proof.
  intros Hn. simpl. apply in_queryset_false, lookup_qs_filter_None. congruence.
Qed.

(** X4. Deleting a cook session succeeds and deletes its result with it, and
    no other result; the notes, images, URLs and PDFs attached to the
    session stay in the store. So afterwards the dashboard totals of the
    attachments are what they were, while the session's target page, every
    "create for target" view for it and its result-edit endpoint answer
    NotFound and leave the store as it is. *)
Theorem X4_session_delete_cascades_result_only
    (req : HttpRequest.t) (pk : Z) (db : DB) :
  ∃ db',
    CookSession_delete pk db = (Ok tt, db')
    ∧ cook_sessions db' = delete pk (cook_sessions db)
    ∧ results_of pk db' = ∅
    ∧ (∀ k r, cook_results db !! k = Some r → CookResult.cook_session r ≠ pk →
              cook_results db' !! k = Some r)
    ∧ (∀ k r, cook_results db' !! k = Some r → cook_results db !! k = Some r)
    ∧ (notes db' = notes db ∧ tracked_images db' = tracked_images db
       ∧ reference_urls db' = reference_urls db ∧ pdf_documents db' = pdf_documents db)
    ∧ (DashboardView_counts req db' !! "notes" = DashboardView_counts req db !! "notes"
       ∧ DashboardView_counts req db' !! "images" = DashboardView_counts req db !! "images"
       ∧ DashboardView_counts req db' !! "urls" = DashboardView_counts req db !! "urls"
       ∧ DashboardView_counts req db' !! "pdfs" = DashboardView_counts req db !! "pdfs")
    ∧ TargetDetailView (A:=Note.t) req "cooksession" pk db' = (Raise Http404, db')
    ∧ (∀ method, TargetNoteCreateView req method "cooksession" pk db'
                 = (Raise Http404, db'))
    ∧ (∀ method, CookResultCreateUpdateView_dispatch req method pk db'
                 = (Raise Http404, db')).
Proof.
  eexists. split; [reflexivity |]. simpl.
  set (db' := mkDB _ _ _ _ _ _ _ _).
  assert (cook_sessions db' !! pk = None) as Hgone by (simpl; apply lookup_delete_eq).
  assert (_get_target_or_404 (HttpRequest.user req) "cooksession" pk db'
          = (Raise Http404, db')) as H404.
  { unfold _get_target_or_404.
    change (ALLOWED_TARGET_MODELS !! "cooksession") with (Some cls_CookSession).
    unfold mbind, M_bind, get_db. by rewrite owned_exists_missing_session. }
  split; [done |]. split.
  { apply map_eq. intros k. rewrite lookup_empty.
    destruct (results_of pk db' !! k) as [r |] eqn:E; [| done].
    apply lookup_results_of in E as [Hr Hs]. simpl in Hr.
    apply map_lookup_filter_Some in Hr as [_ Hne]. done. }
  split.
  { intros k r Hr Hne. by apply map_lookup_filter_Some. }
  split.
  { intros k r Hr. by apply map_lookup_filter_Some in Hr as [Hr _]. }
  split; [done |]. split.
  { destruct (counts_lookup req db') as (_ & _ & _ & _ & Hi' & Hn' & Hu' & Hp').
    destruct (counts_lookup req db) as (_ & _ & _ & _ & Hi & Hn & Hu & Hp).
    by rewrite Hi', Hn', Hu', Hp', Hi, Hn, Hu, Hp. }
  split.
  { unfold TargetDetailView, mbind, M_bind. by rewrite H404. }
  split.
  { intros method. by apply TargetCreateView_raises. }
  intros method.
  unfold CookResultCreateUpdateView_dispatch, mbind, M_bind, get_db, get_object_or_404.
  assert (qs_filter (owned_q (HttpRequest.user req)) (cook_sessions db') !! pk = None)
    as -> by (apply lookup_qs_filter_None; congruence).
  done.
Qed.
